(** * fetch-macos.py: catalog resolution, product selection, package selection

    A shallow embedding of [tools/FetchMacOS/fetch-macos.py].  Decoded property
    lists are an inductive type, Python's dynamic checks ([KeyError],
    [TypeError], [AttributeError], [IndexError], [SystemExit]) are an explicit
    exception type, and every call that leaves the process (HTTP, file system,
    console, logging) is recorded as an event in a trace, its outcome being
    read from a [World]. *)

From Stdlib Require Import String Ascii List ZArith.
Import ListNotations.
Local Open Scope string_scope.
Local Open Scope list_scope.

(** ** Decoded property lists *)

Set Warnings "-register-all".

(** What [plistlib.loads] can return.  A [dict] keeps the order in which its
    keys were inserted, so it is an association list; [lookup] reads the first
    binding of a key. *)
Inductive plist : Type :=
| PDict (items : list (string * plist))
| PArray (elems : list plist)
| PString (s : string)
| PInt (z : Z)
| PReal (ieee_bits : Z)
| PBool (b : bool)
| PData (bytes : list Z)
| PDate (timestamp : Z).

Fixpoint lookup {A : Type} (k : string) (items : list (string * A)) : option A :=
  match items with
  | [] => None
  | (k', v) :: rest => if String.eqb k k' then Some v else lookup k rest
  end.

Definition keys {A : Type} (items : list (string * A)) : list string :=
  map fst items.

(** ** Exceptions and results *)

Inductive exn : Type :=
| KeyError (key : string)
| TypeError
| AttributeError
| IndexError
| SystemExit (code : Z)
| OverflowError
| RequestException
| InvalidFileException
| OSError.

Inductive result (A : Type) : Type :=
| Ok (a : A)
| Raise (e : exn).
Arguments Ok {A} a.
Arguments Raise {A} e.

Definition rbind {A B : Type} (r : result A) (k : A -> result B) : result B :=
  match r with
  | Ok a => k a
  | Raise e => Raise e
  end.

Declare Scope py_scope.
Delimit Scope py_scope with py.
Notation "x <- r ;; k" := (rbind r (fun x => k))
  (at level 61, r at next level, right associativity) : py_scope.

(** ** The Python operations the program applies to decoded values *)

(** [v[k]] with a [str] key. *)
Definition py_getitem (v : plist) (k : string) : result plist :=
  match v with
  | PDict items =>
      match lookup k items with
      | Some x => Ok x
      | None => Raise (KeyError k)
      end
  | _ => Raise TypeError
  end.

(** [v.get(k, default)]: only a [dict] has the method. *)
Definition py_get (v : plist) (k : string) (default : plist) : result plist :=
  match v with
  | PDict items =>
      match lookup k items with
      | Some x => Ok x
      | None => Ok default
      end
  | _ => Raise AttributeError
  end.

(** [v.get(k)]: the default is [None]. *)
Definition py_get_none (v : plist) (k : string) : result (option plist) :=
  match v with
  | PDict items => Ok (lookup k items)
  | _ => Raise AttributeError
  end.

Definition chars (s : string) : list plist :=
  map (fun c => PString (String c EmptyString)) (list_ascii_of_string s).

(** What a [for] loop walks through. *)
Definition py_iter (v : plist) : result (list plist) :=
  match v with
  | PDict items => Ok (map PString (keys items))
  | PArray elems => Ok elems
  | PString s => Ok (chars s)
  | PData bytes => Ok (map PInt bytes)
  | _ => Raise TypeError
  end.

(** [v == s] for a [str] literal [s]; comparing never raises. *)
Definition py_eq_str (v : plist) (s : string) : bool :=
  match v with
  | PString s' => String.eqb s' s
  | _ => false
  end.

(** [l[-1]]. *)
Definition py_last {A : Type} (l : list A) : result A :=
  match rev l with
  | [] => Raise IndexError
  | x :: _ => Ok x
  end.

(** ** Strings *)

(** [kw in s] on two [str]: [kw] occurs in [s] as a contiguous run. *)
Fixpoint contains (kw s : string) : bool :=
  if String.prefix kw s then true
  else match s with
       | EmptyString => false
       | String _ s' => contains kw s'
       end.

(** [s.split(sep)] for a one-character separator. *)
Fixpoint split (sep : ascii) (s : string) : list string :=
  match s with
  | EmptyString => [EmptyString]
  | String c s' =>
      if Ascii.eqb c sep then EmptyString :: split sep s'
      else match split sep s' with
           | [] => [String c EmptyString]
           | seg :: segs => String c seg :: segs
           end
  end.

Definition ends_with_slash (s : string) : bool :=
  match rev (list_ascii_of_string s) with
  | c :: _ => Ascii.eqb c "/"
  | [] => false
  end.

(** [os.path.join(path, label)] (POSIX). *)
Definition os_path_join (path label : string) : string :=
  if String.prefix "/" label then label
  else if (String.eqb path "" || ends_with_slash path)%bool then path ++ label
  else path ++ "/" ++ label.

(** [keyword in v] where [v] is what [item.get("URL")] gave. *)
Definition py_in (keyword : string) (v : option plist) : result bool :=
  match v with
  | Some (PString s) => Ok (contains keyword s)
  | Some (PArray elems) => Ok (existsb (fun e => py_eq_str e keyword) elems)
  | Some (PDict items) => Ok (existsb (String.eqb keyword) (keys items))
  | _ => Raise TypeError
  end.

(** The least magnitude of an [int] whose quotient by 1024 rounds past the
    largest [float]: true division of two [int] is correctly rounded, and
    the quotient overflows from [2^1024 - 2^970] on. *)
Definition float_limit : Z := (2 ^ 1034 - 2 ^ 980)%Z.

(** [v / 1024], for its exceptions: an [int] divides unless the quotient is
    out of the range of [float], a [float] and a [bool] always divide, and
    nothing else does. *)
Definition py_div_1024 (v : option plist) : result unit :=
  match v with
  | Some (PInt z) =>
      if (Z.abs z <? float_limit)%Z then Ok tt else Raise OverflowError
  | Some (PReal _) | Some (PBool _) => Ok tt
  | _ => Raise TypeError
  end.


(** ** Effects *)

(** What the process does to the outside, in the order it does it. *)
Inductive event : Type :=
| LogInfo (msg : string)
| HttpGet (url : string) (user_agent : string) (stream : bool)
| MakeDirs (path : string)
| OpenWrite (filename : string)
| Print (msg : string).

(** The outside: what a request, a decode, a directory creation and a file
    opening answer.  [None] and [false] stand for the call raising. *)
Record World : Type := {
  requests_get : string -> option string;
  plistlib_loads : string -> option plist;
  os_makedirs : string -> bool;
  open_wb : string -> bool
}.

(** A computation: the events it emitted and how it ended. *)
Definition M (A : Type) : Type := (list event * result A)%type.

Definition ret {A : Type} (a : A) : M A := ([], Ok a).

Definition raise {A : Type} (e : exn) : M A := ([], Raise e).

Definition emit (ev : event) : M unit := ([ev], Ok tt).

Definition lift {A : Type} (r : result A) : M A := ([], r).

Definition bind {A B : Type} (m : M A) (k : A -> M B) : M B :=
  match m with
  | (t, Ok a) => let (t', r) := k a in (t ++ t', r)
  | (t, Raise e) => (t, Raise e)
  end.

(** [try: m  except KeyError: handler]. *)
Definition except_KeyError {A : Type} (m : M A) (handler : M A) : M A :=
  match m with
  | (t, Raise (KeyError _)) => let (t', r) := handler in (t ++ t', r)
  | other => other
  end.

Declare Scope io_scope.
Delimit Scope io_scope with io.
Notation "x <~ m ;; k" := (bind m (fun x => k))
  (at level 61, m at next level, right associativity) : io_scope.
Notation "m ;;; k" := (bind m (fun _ => k))
  (at level 61, right associativity) : io_scope.

(** [exit(1)]. *)
Definition py_exit {A : Type} (code : Z) : M A := raise (SystemExit code).

(** ** ClientMeta *)

Module ClientMeta.

(** Client used to connect to the Software CDN. *)
Definition osinstall : string :=
  "osinstallersetupplaind (unknown version) CFNetwork/720.5.7 Darwin/14.5.0 (x86_64)".

(** Client used to connect to the Software Distribution service. *)
Definition swupdate : string :=
  "Software%20Update (unknown version) CFNetwork/807.0.1 Darwin/16.0.0 (x86_64)".

End ClientMeta.

(** ** Filesystem *)

Module Filesystem.

(** [download_file(url, size, path)]: the label is the last segment of the
    URL; the request is sent, the file opened, and only then is
    [size / 1024] computed for the progress bar.  Rendering the bar and
    copying the chunks add nothing observable here. *)
Definition download_file (w : World) (url size : option plist) (path : string)
  : M string :=
  match url with
  | Some (PString u) =>
      let label := last (split "/" u) "" in
      let filename := os_path_join path label in
      (emit (HttpGet u ClientMeta.osinstall true) ;;;
       match requests_get w u with
       | None => raise RequestException
       | Some _ =>
           emit (OpenWrite filename) ;;;
           if open_wb w filename then
             lift (py_div_1024 size) ;;; ret filename
           else raise OSError
       end)%io
  | Some (PData _) => raise TypeError
  | _ => raise AttributeError
  end.

(** [check_directory(path)]: [EEXIST] is swallowed, any other [OSError]
    propagates. *)
Definition check_directory (w : World) (path : string) : M unit :=
  (emit (MakeDirs path) ;;;
   if os_makedirs w path then ret tt else raise OSError)%io.

End Filesystem.

(** ** SoftwareService *)

Module SoftwareService.

Definition catalogs : list (string * string) :=
  [ ("CustomerSeed", "https://swscan.apple.com/content/catalogs/others/index-10.15customerseed-10.15-10.14-10.13-10.12-10.11-10.10-10.9-mountainlion-lion-snowleopard-leopard.merged-1.sucatalog");
    ("DeveloperSeed", "https://swscan.apple.com/content/catalogs/others/index-10.15seed-10.15-10.14-10.13-10.12-10.11-10.10-10.9-mountainlion-lion-snowleopard-leopard.merged-1.sucatalog");
    ("PublicSeed", "https://swscan.apple.com/content/catalogs/others/index-10.15beta-10.15-10.14-10.13-10.12-10.11-10.10-10.9-mountainlion-lion-snowleopard-leopard.merged-1.sucatalog");
    ("PublicRelease", "https://swscan.apple.com/content/catalogs/others/index-10.15-10.14-10.13-10.12-10.11-10.10-10.9-mountainlion-lion-snowleopard-leopard.merged-1.sucatalog");
    ("PublicRelease14", "https://swscan.apple.com/content/catalogs/others/index-10.14-10.13-10.12-10.11-10.10-10.9-mountainlion-lion-snowleopard-leopard.merged-1.sucatalog");
    ("PublicRelease13", "https://swscan.apple.com/content/catalogs/others/index-10.13-10.12-10.11-10.10-10.9-mountainlion-lion-snowleopard-leopard.merged-1.sucatalog");
    ("PublicRelease12", "https://swscan.apple.com/content/catalogs/others/index-10.12-10.11-10.10-10.9-mountainlion-lion-snowleopard-leopard.merged-1.sucatalog") ].

Record t : Type := {
  catalog_url : string;
  catalog_data : string
}.

(** [__init__]: the default [catalogs["PublicRelease"]] is evaluated before
    [.get] is called. *)
Definition init (catalog_id : string) : result t :=
  match lookup "PublicRelease" catalogs with
  | None => Raise (KeyError "PublicRelease")
  | Some default =>
      Ok {| catalog_url := match lookup catalog_id catalogs with
                           | Some url => url
                           | None => default
                           end;
            catalog_data := "" |}
  end.

(** [getcatalog]: stores the body in the object and returns it too. *)
Definition getcatalog (w : World) (self : t) : M (t * string) :=
  (emit (LogInfo ("Network Request: " ++ "Fetching " ++ catalog_url self)) ;;;
   emit (HttpGet (catalog_url self) ClientMeta.swupdate false) ;;;
   match requests_get w (catalog_url self) with
   | None => raise RequestException
   | Some text =>
       ret ({| catalog_url := catalog_url self; catalog_data := text |}, text)
   end)%io.

Definition marker : string := "com.apple.mpkg.OSInstall".

(** The body of the [for product in products] loop over the keys of a
    [dict], with the list built so far. *)
Fixpoint getosinstall_loop (products : plist) (todo ospackages : list string)
  : result (list string) :=
  match todo with
  | [] => Ok ospackages
  | product :: rest =>
      (v0 <- py_get products product (PDict []) ;;
       v1 <- py_get v0 "ExtendedMetaInfo" (PDict []) ;;
       v2 <- py_get v1 "InstallAssistantPackageIdentifiers" (PDict []) ;;
       v3 <- py_get v2 "OSInstall" (PDict []) ;;
       if py_eq_str v3 marker
       then getosinstall_loop products rest (ospackages ++ [product])
       else getosinstall_loop products rest ospackages)%py
  end.

(** The part of [getosinstall] after the decode.  Over a [dict] the loop
    walks the keys.  Anything else that can be iterated has no [.get], so
    the first turn of the loop raises; with nothing to walk the loop is
    skipped. *)
Definition getosinstall_root (root : plist) : result (list string) :=
  (products <- py_getitem root "Products" ;;
   match products with
   | PDict items => getosinstall_loop products (keys items) []
   | _ =>
       todo <- py_iter products ;;
       match todo with
       | [] => Ok []
       | _ :: _ => Raise AttributeError
       end
   end)%py.

Definition getosinstall (w : World) (self : t) : result (list string) :=
  match plistlib_loads w (catalog_data self) with
  | None => Raise InvalidFileException
  | Some root => getosinstall_root root
  end.

End SoftwareService.

(** ** MacOSProduct *)

Module MacOSProduct.

Record t : Type := {
  date : plist;
  product : plist
}.

Definition init (w : World) (catalog product_id : string) : result t :=
  match plistlib_loads w catalog with
  | None => Raise InvalidFileException
  | Some root =>
      (products <- py_getitem root "Products" ;;
       d <- py_getitem root "IndexDate" ;;
       p <- py_getitem products product_id ;;
       Ok {| date := d; product := p |})%py
  end.

(** [if keyword:] is taken for a non-empty string only. *)
Definition truthy (keyword : option string) : bool :=
  match keyword with
  | None => false
  | Some kw => negb (String.eqb kw "")
  end.

(** The loop of the [if keyword:] branch. *)
Fixpoint fetch_matching (w : World) (keyword path : string) (packages : list plist)
  : M unit :=
  match packages with
  | [] => ret tt
  | item :: rest =>
      (url <~ lift (py_get_none item "URL") ;;
       hit <~ lift (py_in keyword url) ;;
       (if hit : bool then
          size <~ lift (py_get_none item "Size") ;;
          Filesystem.download_file w url size path ;;; ret tt
        else ret tt) ;;;
       fetch_matching w keyword path rest)%io
  end.

(** The loop of the [else] branch. *)
Fixpoint fetch_all (w : World) (path : string) (packages : list plist) : M unit :=
  match packages with
  | [] => ret tt
  | item :: rest =>
      (url <~ lift (py_get_none item "URL") ;;
       size <~ lift (py_get_none item "Size") ;;
       Filesystem.download_file w url size path ;;;
       fetch_all w path rest)%io
  end.

Definition fetchpackages (w : World) (self : t) (path : string)
  (keyword : option string) : M unit :=
  (Filesystem.check_directory w path ;;;
   packages <~ lift (py_getitem (product self) "Packages") ;;
   todo <~ lift (py_iter packages) ;;
   match keyword with
   | Some kw => if truthy keyword then fetch_matching w kw path todo
                else fetch_all w path todo
   | None => fetch_all w path todo
   end)%io.

End MacOSProduct.

(** ** fetchmacos *)

(** The [if latest: ... else: ...] step, which settles the product id. *)
Definition resolve_product_id (w : World) (remote : SoftwareService.t)
  (product_id : string) (latest : bool) : M string :=
  if latest then
    (ospackages <~ lift (SoftwareService.getosinstall w remote) ;;
     lift (py_last ospackages))%io
  else if String.eqb product_id "" then
    (emit (Print "You must provide a Product ID (or pass the -l flag) to continue.") ;;;
     py_exit 1)%io
  else ret product_id.

(** The rest of [fetchmacos] once the product id is settled. *)
Definition fetch_product (w : World) (catalog product_id output_dir : string)
  (fetch_esd : bool) : M unit :=
  (product <~ except_KeyError
                (lift (MacOSProduct.init w catalog product_id))
                (emit (Print ("Product ID " ++ product_id ++ " could not be found.")) ;;;
                 py_exit 1) ;;
   emit (LogInfo ("Selected macOS Product: " ++ product_id)) ;;;
   MacOSProduct.fetchpackages w product output_dir
     (Some (if negb fetch_esd then "BaseSystem" else "InstallESDDmg.pkg")))%io.

Definition fetchmacos (w : World) (output_dir catalog_id : string)
  (fetch_esd : bool) (product_id : string) (latest : bool) : M unit :=
  (remote <~ lift (SoftwareService.init catalog_id) ;;
   fetched <~ SoftwareService.getcatalog w remote ;;
   product_id <~ resolve_product_id w (fst fetched) product_id latest ;;
   fetch_product w (snd fetched) product_id output_dir fetch_esd)%io.

(** ** What the specification calls things *)

(** Safe navigation along a path of keys: absent as soon as a key is missing
    or the value at hand is not a mapping. *)
Fixpoint resolve_path (v : plist) (path : list string) : option plist :=
  match path with
  | [] => Some v
  | k :: rest =>
      match v with
      | PDict items =>
          match lookup k items with
          | Some v' => resolve_path v' rest
          | None => None
          end
      | _ => None
      end
  end.

Definition installer_path : list string :=
  ["ExtendedMetaInfo"; "InstallAssistantPackageIdentifiers"; "OSInstall"].

(** The product [id] of [products] carries the installer marker at the end
    of the metadata path. *)
Definition is_installer (products : list (string * plist)) (id : string) : bool :=
  match lookup id products with
  | Some v =>
      match resolve_path v installer_path with
      | Some (PString s) => String.eqb s SoftwareService.marker
      | _ => false
      end
  | None => false
  end.

(** A product shaped as the data model has it: a mapping, in which every
    step of the path that is present, short of the last, holds a mapping.
    Missing keys are allowed at every level. *)
Fixpoint navigable (v : plist) (path : list string) : bool :=
  match path with
  | [] => true
  | k :: rest =>
      match v with
      | PDict items =>
          match lookup k items with
          | Some v' => navigable v' rest
          | None => true
          end
      | _ => false
      end
  end.

Definition well_formed_products (products : list (string * plist)) : Prop :=
  Forall (fun kv => navigable (snd kv) installer_path = true) products.

(** The url of a package descriptor, when it has one. *)
Definition package_url (item : plist) : option string :=
  match item with
  | PDict fields =>
      match lookup "URL" fields with
      | Some (PString u) => Some u
      | _ => None
      end
  | _ => None
  end.


(** Selection as the specification words it. *)
Definition selects (keyword : option string) (item : plist) : bool :=
  match keyword with
  | None => true
  | Some kw =>
      match package_url item with
      | Some u => contains kw u
      | None => false
      end
  end.



Definition is_download (ev : event) : bool :=
  match ev with
  | HttpGet _ _ true | OpenWrite _ => true
  | _ => false
  end.

Definition is_network (ev : event) : bool :=
  match ev with
  | HttpGet _ _ _ => true
  | _ => false
  end.

(** ** Sample catalogs *)

Definition base_system_package : plist :=
  PDict [("URL", PString "https://swcdn.apple.com/content/001/BaseSystem.pkg");
         ("Size", PInt 100)].

Definition install_esd_package : plist :=
  PDict [("URL", PString "https://swcdn.apple.com/content/001/InstallESDDmg.pkg");
         ("Size", PInt 500)].


Definition installer_product : plist :=
  PDict [("ExtendedMetaInfo",
          PDict [("InstallAssistantPackageIdentifiers",
                  PDict [("OSInstall", PString "com.apple.mpkg.OSInstall")])]);
         ("Packages", PArray [base_system_package; install_esd_package])].

(** An older product: no metadata at all. *)
Definition update_product : plist :=
  PDict [("Packages", PArray [base_system_package])].

Definition sample_products : list (string * plist) :=
  [("001-1", installer_product); ("001-2", update_product);
   ("001-3", installer_product)].

Definition sample_catalog : list (string * plist) :=
  [("IndexDate", PDate 1570000000); ("Products", PDict sample_products)].

(** The same catalog with the index date left out. *)
Definition undated_catalog : list (string * plist) :=
  [("Products", PDict sample_products)].

(** A catalog none of whose products is an installer. *)
Definition update_only_catalog : list (string * plist) :=
  [("IndexDate", PDate 1570000000);
   ("Products", PDict [("001-2", update_product)])].

(** A catalog that lists a newer-numbered installer before an older one. *)
Definition unordered_catalog : list (string * plist) :=
  [("IndexDate", PDate 1570000000);
   ("Products", PDict [("061-26589", installer_product);
                       ("041-91758", installer_product)])].

(** A world in which every request answers, every decode gives [root], and
    the file system accepts everything. *)
Definition world_serving (root : plist) : World :=
  {| requests_get := fun _ => Some "catalog";
     plistlib_loads := fun _ => Some root;
     os_makedirs := fun _ => true;
     open_wb := fun _ => true |}.

Definition public_release_url : string :=
  "https://swscan.apple.com/content/catalogs/others/index-10.15-10.14-10.13-10.12-10.11-10.10-10.9-mountainlion-lion-snowleopard-leopard.merged-1.sucatalog".

Definition missing_id_message : string :=
  "You must provide a Product ID (or pass the -l flag) to continue.".

(** The two events of [getcatalog]. *)
Definition catalog_request (url : string) : list event :=
  [LogInfo ("Network Request: Fetching " ++ url);
   HttpGet url ClientMeta.swupdate false].

(** The service object once [getcatalog] has stored [body] in it. *)
Definition loaded (remote : SoftwareService.t) (body : string)
  : SoftwareService.t :=
  {| SoftwareService.catalog_url := SoftwareService.catalog_url remote;
     SoftwareService.catalog_data := body |}.



(** A world in which the catalog does not decode. *)
Definition world_undecodable : World :=
  {| requests_get := fun _ => Some "<html>";
     plistlib_loads := fun _ => None;
     os_makedirs := fun _ => true;
     open_wb := fun _ => true |}.


(** A catalog one of whose products carries a string where the metadata
    mapping belongs. *)
Definition odd_metadata_catalog : list (string * plist) :=
  [("IndexDate", PDate 1570000000);
   ("Products", PDict [("001-1", installer_product);
                       ("001-9", PDict [("ExtendedMetaInfo", PString "none")])])].

(** A catalog without the "Products" entry. *)
Definition productless_catalog : list (string * plist) :=
  [("IndexDate", PDate 1570000000)].

(** A catalog whose one product lists no packages at all. *)
Definition packageless_catalog : list (string * plist) :=
  [("IndexDate", PDate 1570000000);
   ("Products", PDict [("001-7", PDict [("ServerMetadataURL", PString "x")])])].

(** ** Vocabulary for whole runs *)

(** The keyword [fetchmacos] hands to [fetchpackages]. *)
Definition selection_keyword (fetch_esd : bool) : string :=
  if negb fetch_esd then "BaseSystem" else "InstallESDDmg.pkg".

(** The file a download of [u] into [path] writes. *)
Definition download_target (path u : string) : string :=
  os_path_join path (last (split "/" u) "").

(** [sep.join(segs)]. *)
Fixpoint join (sep : ascii) (segs : list string) : string :=
  match segs with
  | [] => ""
  | seg :: rest =>
      match rest with
      | [] => seg
      | _ :: _ => seg ++ String sep (join sep rest)
      end
  end.

(** No ["/"] among the characters of [s]. *)
Definition slash_free (s : string) : Prop :=
  ~ In "/"%char (list_ascii_of_string s).




(** The events a run may emit once the catalog has been requested: console
    and log lines, the creation of the output directory, requests for
    package urls that contain the keyword, and the files those go to. *)
Definition product_event (path kw : string) (ev : event) : Prop :=
  match ev with
  | LogInfo _ | Print _ => True
  | MakeDirs p => p = path
  | HttpGet u ua stream =>
      stream = true /\ ua = ClientMeta.osinstall /\ contains kw u = true
  | OpenWrite f =>
      exists u, contains kw u = true /\ f = download_target path u
  end.

(** The events of the download loop: a request for a package url that
    contains the keyword, or the opening of the file it goes to. *)
Definition download_event (path kw : string) (ev : event) : Prop :=
  match ev with
  | HttpGet u ua stream =>
      stream = true /\ ua = ClientMeta.osinstall /\ contains kw u = true
  | OpenWrite f =>
      exists u, contains kw u = true /\ f = download_target path u
  | _ => False
  end.

(** The request for the catalog, as opposed to a streamed download. *)
Definition is_catalog_get (ev : event) : bool :=
  match ev with
  | HttpGet _ _ false => true
  | _ => false
  end.

(** An exception other than the one [exit] raises. *)
Definition plain (e : exn) : Prop :=
  match e with
  | SystemExit _ => False
  | _ => True
  end.

(** The product under [id] can be walked along the metadata path. *)
Definition product_navigable (products : list (string * plist)) (id : string)
  : bool :=
  match lookup id products with
  | Some v => navigable v installer_path
  | None => true
  end.

(** The keyword as [fetchpackages] ends up using it: none and the empty
    string both select everything. *)
Definition effective_keyword (keyword : option string) : string :=
  match keyword with
  | Some kw => kw
  | None => ""
  end.

(** ** Lemmas on the computation type *)

Lemma bind_lift_ok {A B : Type} (a : A) (k : A -> M B) :
  bind (lift (Ok a)) k = k a.
Proof. unfold bind, lift. destruct (k a); reflexivity. Qed.


Lemma bind_ret {A B : Type} (a : A) (k : A -> M B) :
  bind (ret a) k = k a.
Proof. exact (bind_lift_ok a k). Qed.

Lemma bind_emit {B : Type} (ev : event) (k : unit -> M B) :
  bind (emit ev) k = (ev :: fst (k tt), snd (k tt)).
Proof. unfold bind, emit. destruct (k tt); reflexivity. Qed.

Lemma bind_pair {A B : Type} (t : list event) (a : A) (k : A -> M B) :
  bind (t, Ok a) k = (t ++ fst (k a), snd (k a)).
Proof. unfold bind. destruct (k a); reflexivity. Qed.

Lemma fst_bind {A B : Type} (m : M A) (k : A -> M B) :
  fst (bind m k) =
  fst m ++ match snd m with
           | Ok a => fst (k a)
           | Raise _ => []
           end.
Proof.
  destruct m as [t [a|e]]; unfold bind; cbn [fst snd].
  - now destruct (k a).
  - now rewrite app_nil_r.
Qed.

Lemma snd_bind {A B : Type} (m : M A) (k : A -> M B) :
  snd (bind m k) =
  match snd m with
  | Ok a => snd (k a)
  | Raise e => Raise e
  end.
Proof.
  destruct m as [t [a|e]]; unfold bind; cbn [fst snd]; [|reflexivity].
  now destruct (k a).
Qed.

Lemma except_KeyError_lift {A : Type} (r : result A) (handler : M A) :
  except_KeyError (lift r) handler =
  match r with
  | Raise (KeyError _) => handler
  | _ => lift r
  end.
Proof.
  destruct r as [a|[]]; try reflexivity.
  unfold except_KeyError, lift. now destruct handler.
Qed.


(** ** Lemmas on strings and association lists *)

Lemma prefix_iff (kw s : string) :
  String.prefix kw s = true <-> exists post, s = (kw ++ post)%string.
Proof.
  revert s. induction kw as [|c kw IH]; intros s; simpl.
  - destruct s; split; intros; try reflexivity; eexists; reflexivity.
  - destruct s as [|d s].
    + split; [discriminate|]. intros [post H]. discriminate.
    + simpl. destruct (ascii_dec c d) as [->|Hne].
      * rewrite IH. split; intros [post H]; exists post.
        -- now subst.
        -- now inversion H.
      * split; [discriminate|]. intros [post H]. inversion H. congruence.
Qed.

Lemma contains_unfold (kw s : string) :
  contains kw s =
  if String.prefix kw s then true
  else match s with
       | EmptyString => false
       | String _ s' => contains kw s'
       end.
Proof. destruct s; reflexivity. Qed.

Lemma contains_iff (kw s : string) :
  contains kw s = true <-> exists pre post, s = (pre ++ kw ++ post)%string.
Proof.
  induction s as [|c s IH]; rewrite contains_unfold.
  - destruct (String.prefix kw "") eqn:Hp.
    + split; [|intros; reflexivity]. intros _. apply prefix_iff in Hp.
      destruct Hp as [post Hp]. exists "", post. exact Hp.
    + split; [discriminate|]. intros (pre & post & H).
      destruct pre; [|discriminate].
      assert (String.prefix kw "" = true) by (apply prefix_iff; eauto).
      congruence.
  - destruct (String.prefix kw (String c s)) eqn:Hp.
    + split; [|intros; reflexivity]. intros _. apply prefix_iff in Hp.
      destruct Hp as [post Hp]. exists "", post. exact Hp.
    + rewrite IH. split.
      * intros (pre & post & H). exists (String c pre), post.
        rewrite H. reflexivity.
      * intros (pre & post & H). destruct pre as [|d pre].
        -- assert (String.prefix kw (String c s) = true)
             by (apply prefix_iff; eauto).
           congruence.
        -- inversion H. eauto.
Qed.

Lemma contains_empty (s : string) : contains "" s = true.
Proof. apply contains_iff. exists "", s. reflexivity. Qed.

Lemma lookup_keys {A : Type} (k : string) (items : list (string * A)) :
  In k (keys items) -> exists v, lookup k items = Some v /\ In v (map snd items).
Proof.
  induction items as [|[k' v'] items IH]; simpl; [contradiction|].
  intros H. destruct (String.eqb_spec k k') as [->|Hne].
  - exists v'. auto.
  - destruct H as [H|H]; [congruence|].
    destruct (IH H) as (v & Hv & Hin). exists v. auto.
Qed.

Lemma lookup_not_keys {A : Type} (k : string) (items : list (string * A)) :
  ~ In k (keys items) <-> lookup k items = None.
Proof.
  induction items as [|[k' v'] items IH]; simpl.
  - tauto.
  - destruct (String.eqb_spec k k') as [->|Hne].
    + split; [intros H; exfalso; auto | discriminate].
    + rewrite <- IH. split; intros H; [tauto|].
      intros [H'|H']; [congruence | tauto].
Qed.

(** ** The catalog registry *)

Lemma init_total (catalog_id : string) :
  exists remote, SoftwareService.init catalog_id = Ok remote /\
                 SoftwareService.catalog_data remote = "".
Proof. eexists. split; reflexivity. Qed.

(** C9. Catalog-URL resolution never raises; CustomerSeed, DeveloperSeed,
    PublicSeed, PublicRelease and the numbered release catalogs 14, 13 and 12
    each resolve to the location the table gives them, these locations are
    pairwise different, and every identifier that is not a key of the table
    resolves to the location of PublicRelease. *)
Theorem catalog_url_resolution :
  (forall id url,
      In (id, url) SoftwareService.catalogs ->
      SoftwareService.init id =
      Ok {| SoftwareService.catalog_url := url;
            SoftwareService.catalog_data := "" |}) /\
  keys SoftwareService.catalogs =
  ["CustomerSeed"; "DeveloperSeed"; "PublicSeed"; "PublicRelease";
   "PublicRelease14"; "PublicRelease13"; "PublicRelease12"] /\
  NoDup (map snd SoftwareService.catalogs) /\
  (forall id,
      ~ In id (keys SoftwareService.catalogs) ->
      SoftwareService.init id = SoftwareService.init "PublicRelease") /\
  (forall id, exists remote, SoftwareService.init id = Ok remote).
Proof.
  split; [|split; [|split; [|split]]].
  - intros id url H. simpl in H.
    repeat (destruct H as [H|H]; [inversion H; subst; reflexivity|]).
    contradiction.
  - reflexivity.
  - repeat (constructor; [simpl; intros H;
      repeat (destruct H as [H|H]; [discriminate H|]); exact H|]).
    constructor.
  - intros id H. apply lookup_not_keys in H.
    unfold SoftwareService.init.
    change (lookup "PublicRelease" SoftwareService.catalogs)
      with (Some "https://swscan.apple.com/content/catalogs/others/index-10.15-10.14-10.13-10.12-10.11-10.10-10.9-mountainlion-lion-snowleopard-leopard.merged-1.sucatalog").
    rewrite H. reflexivity.
  - intros id. destruct (init_total id) as (remote & H & _). eauto.
Qed.

Lemma catalog_url_resolution_witness :
  ~ In "Nightly" (keys SoftwareService.catalogs) /\
  SoftwareService.init "Nightly" = SoftwareService.init "PublicRelease".
Proof.
  assert (H : ~ In "Nightly" (keys SoftwareService.catalogs)).
  { simpl. intros H.
    repeat (destruct H as [H|H]; [discriminate H|]). exact H. }
  split; [exact H|].
  exact (proj1 (proj2 (proj2 (proj2 catalog_url_resolution))) "Nightly" H).
Defined.

(** ** Installer products *)

Lemma getosinstall_loop_ok (items : list (string * plist)) (todo : list string) :
  (forall k, In k todo ->
     exists v, lookup k items = Some v /\ navigable v installer_path = true) ->
  forall acc,
    SoftwareService.getosinstall_loop (PDict items) todo acc =
    Ok (acc ++ filter (is_installer items) todo).
Proof.
  induction todo as [|k todo IH]; intros Hnav acc.
  - simpl. now rewrite app_nil_r.
  - destruct (Hnav k (or_introl eq_refl)) as (v & Hl & Hv).
    assert (Hrest : forall k', In k' todo ->
              exists v', lookup k' items = Some v' /\
                         navigable v' installer_path = true)
      by (intros; apply Hnav; now right).
    specialize (IH Hrest).
    cbn [SoftwareService.getosinstall_loop filter].
    unfold is_installer at 1. unfold py_get at 1. rewrite Hl.
    cbn [rbind].
    unfold installer_path in Hv |- *.
    destruct v as [f0| | | | | | |]; try discriminate Hv.
    cbn [navigable resolve_path py_get rbind] in Hv |- *.
    destruct (lookup "ExtendedMetaInfo" f0) as [v1|];
      [destruct v1 as [f1| | | | | | |]; try discriminate Hv|];
      cbn [navigable resolve_path py_get rbind lookup py_eq_str] in Hv |- *;
      try (rewrite IH; reflexivity).
    destruct (lookup "InstallAssistantPackageIdentifiers" f1) as [v2|];
      [destruct v2 as [f2| | | | | | |]; try discriminate Hv|];
      cbn [navigable resolve_path py_get rbind lookup py_eq_str] in Hv |- *;
      try (rewrite IH; reflexivity).
    destruct (lookup "OSInstall" f2) as [v3|];
      cbn [py_eq_str rbind];
      [|rewrite IH; reflexivity].
    destruct v3; cbn [py_eq_str]; try (rewrite IH; reflexivity).
    destruct (String.eqb s SoftwareService.marker);
      rewrite IH; [rewrite <- app_assoc|]; reflexivity.
Qed.

Lemma filter_is_installer_iff (items : list (string * plist)) (id : string) :
  In id (filter (is_installer items) (keys items)) <->
  exists v, lookup id items = Some v /\
            resolve_path v installer_path = Some (PString SoftwareService.marker).
Proof.
  rewrite filter_In. unfold is_installer. split.
  - intros [_ H]. destruct (lookup id items) as [v|]; [|discriminate].
    exists v. split; [reflexivity|].
    destruct (resolve_path v installer_path) as [[]|]; try discriminate.
    apply String.eqb_eq in H. now subst.
  - intros (v & Hl & Hp). split.
    + destruct (in_dec string_dec id (keys items)) as [Hin|Hout]; [exact Hin|].
      apply lookup_not_keys in Hout. congruence.
    + rewrite Hl, Hp. apply String.eqb_refl.
Qed.

(** C1. On a decoded document whose top level maps "Products" to a mapping of
    well-formed products, [getosinstall] returns, in the order of the
    mapping's keys, exactly the ids whose path ExtendedMetaInfo ->
    InstallAssistantPackageIdentifiers -> OSInstall resolves to the marker
    string; keys missing at any level of the path do not make it raise. *)
Theorem getosinstall_lists_installers (w : World) (self : SoftwareService.t)
  (top products : list (string * plist)) :
  plistlib_loads w (SoftwareService.catalog_data self) = Some (PDict top) ->
  lookup "Products" top = Some (PDict products) ->
  well_formed_products products ->
  SoftwareService.getosinstall w self =
    Ok (filter (is_installer products) (keys products)) /\
  (forall id,
     In id (filter (is_installer products) (keys products)) <->
     exists v, lookup id products = Some v /\
               resolve_path v installer_path =
               Some (PString SoftwareService.marker)).
Proof.
  intros Hload Hproducts Hwf. split; [|apply filter_is_installer_iff].
  unfold SoftwareService.getosinstall. rewrite Hload.
  unfold SoftwareService.getosinstall_root, py_getitem. rewrite Hproducts.
  cbn [rbind].
  rewrite getosinstall_loop_ok; [reflexivity|].
  intros k Hk. destruct (lookup_keys k products Hk) as (v & Hl & Hin).
  exists v. split; [exact Hl|].
  apply in_map_iff in Hin. destruct Hin as (kv & <- & Hin).
  unfold well_formed_products in Hwf. rewrite Forall_forall in Hwf.
  exact (Hwf kv Hin).
Qed.

Lemma sample_products_well_formed : well_formed_products sample_products.
Proof. repeat constructor. Qed.

Lemma getosinstall_lists_installers_witness :
  well_formed_products sample_products /\
  SoftwareService.getosinstall (world_serving (PDict sample_catalog))
    {| SoftwareService.catalog_url := public_release_url;
       SoftwareService.catalog_data := "catalog" |} =
  Ok ["001-1"; "001-3"].
Proof.
  split; [exact sample_products_well_formed|].
  exact (proj1 (getosinstall_lists_installers
                  (world_serving (PDict sample_catalog))
                  {| SoftwareService.catalog_url := public_release_url;
                     SoftwareService.catalog_data := "catalog" |}
                  sample_catalog sample_products eq_refl eq_refl
                  sample_products_well_formed)).
Defined.

(** A value that is not a mapping in the middle of the path is another
    matter: [.get] does not exist on it. *)
Example getosinstall_non_mapping_metadata :
  SoftwareService.getosinstall_root
    (PDict [("Products",
             PDict [("001-9", PDict [("ExtendedMetaInfo", PString "none")])])]) =
  Raise AttributeError.
Proof. reflexivity. Qed.

(** ** Package selection *)

Section Selection.

Variable w : World.
Variable path : string.
Hypothesis requests_ok : forall u, requests_get w u <> None.
Hypothesis open_ok : forall f, open_wb w f = true.





End Selection.

Section Loops.

Variable w : World.
Variable path : string.









End Loops.






(** The match is case-sensitive, and a descriptor listed twice is fetched
    twice. *)
Example selection_is_case_sensitive :
  selects (Some "basesystem") base_system_package = false /\
  selects (Some "BaseSystem") base_system_package = true.
Proof. split; reflexivity. Qed.

Example selection_keeps_duplicates :
  filter (selects (Some "BaseSystem"))
    [base_system_package; install_esd_package; base_system_package] =
  [base_system_package; base_system_package].
Proof. reflexivity. Qed.

(** ** Descriptors without a url *)




(** ** The index date *)

(** C8, as stated, fails: the product "001-1" is in the catalog, yet building
    it fails because the document has no [IndexDate]. *)
Lemma undated_catalog_fails :
  MacOSProduct.init (world_serving (PDict undated_catalog)) "catalog" "001-1" =
    Raise (KeyError "IndexDate") /\
  MacOSProduct.init (world_serving (PDict sample_catalog)) "catalog" "001-1" =
    Ok {| MacOSProduct.date := PDate 1570000000;
          MacOSProduct.product := installer_product |}.
Proof. split; reflexivity. Qed.

(** C8, amended. The index date is required: on a decoded document that has
    "Products" and omits "IndexDate", building a product raises
    [KeyError "IndexDate"] whatever the product id; where the document has
    it, it is stored as the product's date and the outcome depends on the
    product lookup alone. *)
Theorem index_date_is_required (w : World) (catalog product_id : string)
  (top : list (string * plist)) (products : plist) :
  plistlib_loads w catalog = Some (PDict top) ->
  lookup "Products" top = Some products ->
  (lookup "IndexDate" top = None ->
   MacOSProduct.init w catalog product_id = Raise (KeyError "IndexDate")) /\
  (forall d, lookup "IndexDate" top = Some d ->
     MacOSProduct.init w catalog product_id =
     rbind (py_getitem products product_id)
       (fun p => Ok {| MacOSProduct.date := d; MacOSProduct.product := p |})).
Proof.
  intros Hload Hproducts. unfold MacOSProduct.init. rewrite Hload.
  unfold py_getitem. rewrite Hproducts. cbn [rbind].
  split.
  - intros H. rewrite H. reflexivity.
  - intros d H. rewrite H. reflexivity.
Qed.

Lemma index_date_is_required_witness :
  lookup "IndexDate" undated_catalog = None /\
  MacOSProduct.init (world_serving (PDict undated_catalog)) "catalog" "001-3" =
  Raise (KeyError "IndexDate").
Proof.
  split; [reflexivity|].
  exact (proj1 (index_date_is_required
                  (world_serving (PDict undated_catalog)) "catalog" "001-3"
                  undated_catalog (PDict sample_products) eq_refl eq_refl)
           eq_refl).
Defined.

(** ** The orchestrator *)

Lemma py_last_nonempty {A : Type} (l : list A) (d : A) :
  l <> [] -> py_last l = Ok (last l d).
Proof.
  intros H. destruct (exists_last H) as (l' & x & ->).
  unfold py_last. rewrite rev_app_distr, last_last. reflexivity.
Qed.

Section Orchestrator.

Variable w : World.
Variables output_dir catalog_id : string.
Variable fetch_esd : bool.
Variable remote : SoftwareService.t.
Hypothesis remote_init : SoftwareService.init catalog_id = Ok remote.

Lemma fetchmacos_request_fails (product_id : string) (latest : bool) :
  requests_get w (SoftwareService.catalog_url remote) = None ->
  fetchmacos w output_dir catalog_id fetch_esd product_id latest =
  (catalog_request (SoftwareService.catalog_url remote), Raise RequestException).
Proof.
  intros Hreq. unfold fetchmacos. rewrite remote_init, bind_lift_ok.
  unfold SoftwareService.getcatalog. rewrite Hreq. reflexivity.
Qed.

Lemma fetchmacos_unfold (product_id body : string) (latest : bool) :
  requests_get w (SoftwareService.catalog_url remote) = Some body ->
  fetchmacos w output_dir catalog_id fetch_esd product_id latest =
  (catalog_request (SoftwareService.catalog_url remote) ++
     fst (bind (resolve_product_id w (loaded remote body) product_id latest)
            (fun id => fetch_product w body id output_dir fetch_esd)),
   snd (bind (resolve_product_id w (loaded remote body) product_id latest)
          (fun id => fetch_product w body id output_dir fetch_esd))).
Proof.
  intros Hreq. unfold fetchmacos. rewrite remote_init, bind_lift_ok.
  unfold SoftwareService.getcatalog. rewrite Hreq.
  change (bind (emit (LogInfo ("Network Request: " ++ "Fetching " ++
                                 SoftwareService.catalog_url remote)))
            (fun _ : unit =>
               bind (emit (HttpGet (SoftwareService.catalog_url remote)
                             ClientMeta.swupdate false))
                 (fun _ : unit =>
                    ret ({| SoftwareService.catalog_url :=
                              SoftwareService.catalog_url remote;
                            SoftwareService.catalog_data := body |}, body))))
    with (catalog_request (SoftwareService.catalog_url remote),
          Ok (loaded remote body, body)).
  rewrite bind_pair. reflexivity.
Qed.

End Orchestrator.

Lemma resolve_latest (w : World) (remote : SoftwareService.t)
  (product_id : string) (ids : list string) :
  SoftwareService.getosinstall w remote = Ok ids ->
  resolve_product_id w remote product_id true = ([], py_last ids).
Proof.
  intros H. unfold resolve_product_id. rewrite H, bind_lift_ok. reflexivity.
Qed.

(** C3. With [latest] set, once the catalog has been fetched and
    [getosinstall] has returned a non-empty list, the product id the run goes
    on with is the last entry of that list, in the order [getosinstall] gave:
    the run continues as [fetch_product] on that id. *)
Theorem latest_is_last_installer (w : World) (output_dir catalog_id : string)
  (fetch_esd : bool) (product_id : string) (remote : SoftwareService.t)
  (body : string) (ids : list string) :
  SoftwareService.init catalog_id = Ok remote ->
  requests_get w (SoftwareService.catalog_url remote) = Some body ->
  SoftwareService.getosinstall w (loaded remote body) = Ok ids ->
  ids <> [] ->
  resolve_product_id w (loaded remote body) product_id true =
    ([], Ok (last ids "")) /\
  fetchmacos w output_dir catalog_id fetch_esd product_id true =
    (catalog_request (SoftwareService.catalog_url remote) ++
       fst (fetch_product w body (last ids "") output_dir fetch_esd),
     snd (fetch_product w body (last ids "") output_dir fetch_esd)).
Proof.
  intros Hinit Hreq Hids Hne.
  assert (Hres : resolve_product_id w (loaded remote body) product_id true =
                 ([], Ok (last ids ""))).
  { rewrite (resolve_latest w _ product_id ids Hids).
    now rewrite (py_last_nonempty ids "" Hne). }
  split; [exact Hres|].
  rewrite (fetchmacos_unfold w output_dir catalog_id fetch_esd remote Hinit
             product_id body true Hreq).
  rewrite Hres. change (@pair (list event) (result string) [] (Ok (last ids "")))
    with (ret (last ids "")).
  now rewrite bind_ret.
Qed.

Lemma sample_init :
  SoftwareService.init "PublicRelease" =
  Ok {| SoftwareService.catalog_url := public_release_url;
        SoftwareService.catalog_data := "" |}.
Proof. reflexivity. Qed.

Lemma latest_is_last_installer_witness :
  fetchmacos (world_serving (PDict sample_catalog))
    "BaseSystem/" "PublicRelease" false "" true =
  (catalog_request public_release_url ++
     [LogInfo "Selected macOS Product: 001-3";
      MakeDirs "BaseSystem/";
      HttpGet "https://swcdn.apple.com/content/001/BaseSystem.pkg"
        ClientMeta.osinstall true;
      OpenWrite "BaseSystem/BaseSystem.pkg"],
   Ok tt).
Proof.
  refine (proj2 (latest_is_last_installer
                   (world_serving (PDict sample_catalog))
                   "BaseSystem/" "PublicRelease" false ""
                   {| SoftwareService.catalog_url := public_release_url;
                      SoftwareService.catalog_data := "" |}
                   "catalog" ["001-1"; "001-3"]
                   sample_init eq_refl eq_refl _)).
  discriminate.
Defined.

(** Only the position in the list counts: the id that sorts lower wins when
    it comes last. *)
Example latest_follows_catalog_order :
  resolve_product_id (world_serving (PDict unordered_catalog))
    (loaded {| SoftwareService.catalog_url := public_release_url;
               SoftwareService.catalog_data := "" |} "catalog")
    "" true = ([], Ok "041-91758").
Proof. reflexivity. Qed.

(** C6. With [latest] set, when [getosinstall] returns the empty list the
    run fails: [[][-1]] raises [IndexError] right after the catalog request,
    and nothing is downloaded. *)
Theorem latest_without_installers_fails (w : World)
  (output_dir catalog_id : string) (fetch_esd : bool) (product_id : string)
  (remote : SoftwareService.t) (body : string) :
  SoftwareService.init catalog_id = Ok remote ->
  requests_get w (SoftwareService.catalog_url remote) = Some body ->
  SoftwareService.getosinstall w (loaded remote body) = Ok [] ->
  fetchmacos w output_dir catalog_id fetch_esd product_id true =
    (catalog_request (SoftwareService.catalog_url remote), Raise IndexError).
Proof.
  intros Hinit Hreq Hids.
  rewrite (fetchmacos_unfold w output_dir catalog_id fetch_esd remote Hinit
             product_id body true Hreq).
  rewrite (resolve_latest w _ product_id [] Hids).
  cbn [py_last rev bind fst snd]. now rewrite app_nil_r.
Qed.

Lemma latest_without_installers_fails_witness :
  SoftwareService.getosinstall (world_serving (PDict update_only_catalog))
    (loaded {| SoftwareService.catalog_url := public_release_url;
               SoftwareService.catalog_data := "" |} "catalog") = Ok [] /\
  fetchmacos (world_serving (PDict update_only_catalog))
    "BaseSystem/" "PublicRelease" false "" true =
  (catalog_request public_release_url, Raise IndexError).
Proof.
  split; [reflexivity|].
  exact (latest_without_installers_fails
           (world_serving (PDict update_only_catalog))
           "BaseSystem/" "PublicRelease" false ""
           {| SoftwareService.catalog_url := public_release_url;
              SoftwareService.catalog_data := "" |}
           "catalog" sample_init eq_refl eq_refl).
Defined.

(** C10. With [latest] set the product id the caller supplied plays no part:
    the resolution step and the whole run are the same for any two supplied
    ids, and when [getosinstall] returns a non-empty list the id resolved is
    its last entry whatever was supplied. *)
Theorem latest_ignores_product_id (w : World) (output_dir catalog_id : string)
  (fetch_esd : bool) (supplied other : string) :
  fetchmacos w output_dir catalog_id fetch_esd supplied true =
  fetchmacos w output_dir catalog_id fetch_esd other true /\
  (forall remote,
     resolve_product_id w remote supplied true =
     resolve_product_id w remote other true) /\
  (forall remote ids,
     SoftwareService.getosinstall w remote = Ok ids ->
     ids <> [] ->
     resolve_product_id w remote supplied true = ([], Ok (last ids ""))).
Proof.
  split; [reflexivity|]. split; [reflexivity|].
  intros remote ids Hids Hne.
  rewrite (resolve_latest w remote supplied ids Hids).
  now rewrite (py_last_nonempty ids "" Hne).
Qed.

Lemma latest_ignores_product_id_witness :
  resolve_product_id (world_serving (PDict sample_catalog))
    (loaded {| SoftwareService.catalog_url := public_release_url;
               SoftwareService.catalog_data := "" |} "catalog")
    "001-1" true = ([], Ok "001-3").
Proof.
  refine (proj2 (proj2 (latest_ignores_product_id
                          (world_serving (PDict sample_catalog))
                          "BaseSystem/" "PublicRelease" false "001-1" ""))
            _ ["001-1"; "001-3"] eq_refl _).
  discriminate.
Defined.

(** ** No product id *)

(** C4, as stated, fails: with no product id and no [latest], the catalog is
    requested over the network before the run prints its message and exits. *)
Lemma missing_id_run_requests_catalog :
  fetchmacos (world_serving (PDict sample_catalog))
    "BaseSystem/" "PublicRelease" false "" false =
    ([LogInfo ("Network Request: Fetching " ++ public_release_url);
      HttpGet public_release_url ClientMeta.swupdate false;
      Print missing_id_message],
     Raise (SystemExit 1)) /\
  existsb is_network
    (fst (fetchmacos (world_serving (PDict sample_catalog))
            "BaseSystem/" "PublicRelease" false "" false)) = true.
Proof. split; reflexivity. Qed.

(** C4, amended. With no product id and no [latest], the run first requests
    the catalog; if the request answers, it prints the message and exits with
    status 1, without decoding the catalog, touching the file system or
    downloading anything; if the request raises, that exception ends the
    run. *)
Theorem missing_id_exits_after_catalog_request (w : World)
  (output_dir catalog_id : string) (fetch_esd : bool) :
  exists remote,
    SoftwareService.init catalog_id = Ok remote /\
    fetchmacos w output_dir catalog_id fetch_esd "" false =
    match requests_get w (SoftwareService.catalog_url remote) with
    | Some _ =>
        (catalog_request (SoftwareService.catalog_url remote) ++
           [Print missing_id_message],
         Raise (SystemExit 1))
    | None =>
        (catalog_request (SoftwareService.catalog_url remote),
         Raise RequestException)
    end.
Proof.
  destruct (init_total catalog_id) as (remote & Hinit & _).
  exists remote. split; [exact Hinit|].
  destruct (requests_get w (SoftwareService.catalog_url remote)) as [body|] eqn:Hreq.
  - rewrite (fetchmacos_unfold w output_dir catalog_id fetch_esd remote Hinit
               "" body false Hreq).
    reflexivity.
  - exact (fetchmacos_request_fails w output_dir catalog_id fetch_esd remote
             Hinit "" false Hreq).
Qed.

(** ** Unknown product ids *)

Lemma init_absent_product (w : World) (catalog product_id : string)
  (top products : list (string * plist)) :
  plistlib_loads w catalog = Some (PDict top) ->
  lookup "Products" top = Some (PDict products) ->
  lookup product_id products = None ->
  MacOSProduct.init w catalog product_id =
  Raise (KeyError (match lookup "IndexDate" top with
                   | Some _ => product_id
                   | None => "IndexDate"
                   end)).
Proof.
  intros Hload Hproducts Habsent. unfold MacOSProduct.init. rewrite Hload.
  unfold py_getitem. rewrite Hproducts. cbn [rbind].
  destruct (lookup "IndexDate" top); cbn [rbind]; [|reflexivity].
  now rewrite Habsent.
Qed.

(** C5. For a product id that is not a key of the document's "Products"
    mapping, building the product raises [KeyError] (a decode failure raises
    [InvalidFileException] instead); and when that id was supplied to a run
    without [latest], the run prints a message naming the id and exits with
    status 1 right after the catalog request, with no download. *)
Theorem absent_product_is_reported (w : World) (output_dir catalog_id : string)
  (fetch_esd : bool) (product_id : string) (remote : SoftwareService.t)
  (body : string) (top products : list (string * plist)) :
  SoftwareService.init catalog_id = Ok remote ->
  requests_get w (SoftwareService.catalog_url remote) = Some body ->
  plistlib_loads w body = Some (PDict top) ->
  lookup "Products" top = Some (PDict products) ->
  lookup product_id products = None ->
  (exists key, MacOSProduct.init w body product_id = Raise (KeyError key)) /\
  (lookup "IndexDate" top <> None ->
   MacOSProduct.init w body product_id = Raise (KeyError product_id)) /\
  (forall undecodable,
     plistlib_loads w undecodable = None ->
     MacOSProduct.init w undecodable product_id = Raise InvalidFileException) /\
  (product_id <> "" ->
   fetchmacos w output_dir catalog_id fetch_esd product_id false =
     (catalog_request (SoftwareService.catalog_url remote) ++
        [Print ("Product ID " ++ product_id ++ " could not be found.")],
      Raise (SystemExit 1)) /\
   filter is_download
     (fst (fetchmacos w output_dir catalog_id fetch_esd product_id false)) = []).
Proof.
  intros Hinit Hreq Hload Hproducts Habsent.
  pose proof (init_absent_product w body product_id top products
                Hload Hproducts Habsent) as Hraise.
  split; [eauto|]. split; [|split].
  - intros Hdate. rewrite Hraise.
    destruct (lookup "IndexDate" top); [reflexivity|contradiction].
  - intros undecodable Hnone. unfold MacOSProduct.init. now rewrite Hnone.
  - intros Hid.
    assert (Hrun :
      fetchmacos w output_dir catalog_id fetch_esd product_id false =
      (catalog_request (SoftwareService.catalog_url remote) ++
         [Print ("Product ID " ++ product_id ++ " could not be found.")],
       Raise (SystemExit 1))).
    { rewrite (fetchmacos_unfold w output_dir catalog_id fetch_esd remote Hinit
                 product_id body false Hreq).
      unfold resolve_product_id. apply String.eqb_neq in Hid. rewrite Hid.
      rewrite bind_ret. unfold fetch_product. rewrite Hraise. reflexivity. }
    split; [exact Hrun|]. rewrite Hrun. reflexivity.
Qed.

Lemma absent_product_is_reported_witness :
  lookup "041-9" sample_products = None /\
  "041-9" <> "" /\
  fetchmacos (world_serving (PDict sample_catalog))
    "BaseSystem/" "PublicRelease" false "041-9" false =
  (catalog_request public_release_url ++
     [Print "Product ID 041-9 could not be found."],
   Raise (SystemExit 1)).
Proof.
  assert (Hid : "041-9" <> "") by discriminate.
  split; [reflexivity|]. split; [exact Hid|].
  exact (proj1 (proj2 (proj2 (proj2
           (absent_product_is_reported
              (world_serving (PDict sample_catalog))
              "BaseSystem/" "PublicRelease" false "041-9"
              {| SoftwareService.catalog_url := public_release_url;
                 SoftwareService.catalog_data := "" |}
              "catalog" sample_catalog sample_products
              sample_init eq_refl eq_refl eq_refl eq_refl))) Hid)).
Defined.

(** * Further properties of the code *)

(** ** File names *)

Lemma split_nonempty (sep : ascii) (s : string) : split sep s <> [].
Proof.
  destruct s as [|c s]; simpl; [discriminate|].
  destruct (Ascii.eqb c sep); [discriminate|].
  destruct (split sep s); discriminate.
Qed.

Lemma append_assoc (a b c : string) :
  ((a ++ b) ++ c)%string = (a ++ b ++ c)%string.
Proof. induction a as [|x a IH]; cbn [append]; [reflexivity|now rewrite IH]. Qed.

Lemma last_in {A : Type} (l : list A) (d : A) : l <> [] -> In (last l d) l.
Proof.
  intros H. destruct (exists_last H) as (l' & x & ->).
  rewrite last_last. apply in_or_app. right. now left.
Qed.

Lemma join_split (sep : ascii) (s : string) : join sep (split sep s) = s.
Proof.
  induction s as [|c s IH]; [reflexivity|].
  cbn [split]. destruct (Ascii.eqb_spec c sep) as [->|Hne].
  - cbn [join]. destruct (split sep s) eqn:E; [now apply split_nonempty in E|].
    now rewrite IH.
  - destruct (split sep s) as [|seg segs] eqn:E; [now apply split_nonempty in E|].
    cbn [join] in IH |- *. destruct segs; cbn [append]; now rewrite IH.
Qed.

Lemma join_last (sep : ascii) (segs : list string) :
  exists pre, join sep segs = (pre ++ last segs "")%string.
Proof.
  induction segs as [|seg rest (pre & IH)].
  - exists "". reflexivity.
  - destruct rest as [|seg' rest].
    + exists "". reflexivity.
    + exists (seg ++ String sep pre)%string.
      change (join sep (seg :: seg' :: rest))
        with (seg ++ String sep (join sep (seg' :: rest)))%string.
      change (last (seg :: seg' :: rest) "") with (last (seg' :: rest) "").
      rewrite IH, append_assoc. reflexivity.
Qed.

Lemma split_last_suffix (sep : ascii) (s : string) :
  exists pre, s = (pre ++ last (split sep s) "")%string.
Proof.
  destruct (join_last sep (split sep s)) as (pre & H).
  exists pre. now rewrite <- H, join_split.
Qed.

Lemma split_sep_free (sep : ascii) (s : string) :
  Forall (fun seg => ~ In sep (list_ascii_of_string seg)) (split sep s).
Proof.
  induction s as [|c s IH].
  - constructor; [intros []|constructor].
  - cbn [split]. destruct (Ascii.eqb_spec c sep) as [->|Hne].
    + constructor; [intros []|exact IH].
    + destruct (split sep s) as [|seg segs].
      * constructor; [|constructor]. intros [H|[]]. now apply Hne.
      * inversion IH as [|? ? Hseg Hsegs]; subst. constructor; [|exact Hsegs].
        intros [H|H]; [now apply Hne|now apply Hseg].
Qed.

Lemma label_slash_free (u : string) : slash_free (last (split "/" u) "").
Proof.
  pose proof (split_sep_free "/" u) as H. rewrite Forall_forall in H.
  apply H. apply last_in. apply split_nonempty.
Qed.




(** ** One download *)

Lemma list_ascii_of_string_app (a b : string) :
  list_ascii_of_string (a ++ b) = list_ascii_of_string a ++ list_ascii_of_string b.
Proof. induction a as [|c a IH]; cbn; [reflexivity|now rewrite IH]. Qed.

Lemma string_of_list_ascii_app (a b : list ascii) :
  string_of_list_ascii (a ++ b) =
  (string_of_list_ascii a ++ string_of_list_ascii b)%string.
Proof. induction a as [|c a IH]; cbn; [reflexivity|now rewrite IH]. Qed.

Lemma ends_with_slash_iff (s : string) :
  ends_with_slash s = true <-> exists p, s = (p ++ "/")%string.
Proof.
  unfold ends_with_slash. split.
  - destruct (rev (list_ascii_of_string s)) as [|c r] eqn:E; [discriminate|].
    intros H. apply Ascii.eqb_eq in H. subst c.
    exists (string_of_list_ascii (rev r)).
    rewrite <- (string_of_list_ascii_of_string s).
    rewrite <- (rev_involutive (list_ascii_of_string s)), E.
    cbn [rev]. now rewrite string_of_list_ascii_app.
  - intros (p & ->). rewrite list_ascii_of_string_app, rev_app_distr.
    reflexivity.
Qed.

Lemma os_path_join_slash_free (path label : string) :
  slash_free label ->
  os_path_join path label =
  if (String.eqb path "" || ends_with_slash path)%bool
  then (path ++ label)%string
  else (path ++ "/" ++ label)%string.
Proof.
  intros Hfree. unfold os_path_join.
  destruct (String.prefix "/" label) eqn:Hp; [|reflexivity].
  apply prefix_iff in Hp. destruct Hp as (post & ->).
  exfalso. apply Hfree. now left.
Qed.

(** X1. When [download_file] returns, the url was a string, the label is the
    part of the url after its last slash (the whole url when it has none) and
    holds no slash, and the file returned and opened is the path followed by
    the label, with a slash put between them exactly when the path is
    neither empty nor already ends in one; [Size] divided, and one
    request and one file opening are all it did. *)
Theorem download_file_result (w : World) (url size : option plist)
  (path : string) (t : list event) (f : string) :
  Filesystem.download_file w url size path = (t, Ok f) ->
  exists u label,
    url = Some (PString u) /\
    label = last (split "/" u) "" /\
    slash_free label /\
    (exists pre, u = (pre ++ label)%string) /\
    f = (if (String.eqb path "" || ends_with_slash path)%bool
         then path ++ label
         else path ++ "/" ++ label)%string /\
    (ends_with_slash path = true <-> exists p, path = (p ++ "/")%string) /\
    t = [HttpGet u ClientMeta.osinstall true; OpenWrite f] /\
    py_div_1024 size = Ok tt.
Proof.
  unfold Filesystem.download_file.
  destruct url as [[| |u| | | | |]|]; try discriminate.
  rewrite bind_emit.
  destruct (requests_get w u); [|discriminate].
  rewrite bind_emit.
  destruct (open_wb w (os_path_join path (last (split "/" u) ""))); [|discriminate].
  destruct (py_div_1024 size) as [[]|]; [|discriminate].
  cbn [lift bind ret fst snd app]. intros H. inversion H; subst.
  exists u, (last (split "/" u) ""). repeat split.
  - apply label_slash_free.
  - apply split_last_suffix.
  - apply os_path_join_slash_free, label_slash_free.
  - apply ends_with_slash_iff.
  - apply ends_with_slash_iff.
Qed.

Lemma download_file_result_witness :
  exists u label,
    Some (PString "https://swcdn.apple.com/content/001/BaseSystem.pkg") =
      Some (PString u) /\
    label = last (split "/" u) "" /\
    slash_free label /\
    (exists pre, u = (pre ++ label)%string) /\
    "BaseSystem/BaseSystem.pkg" =
      (if (String.eqb "BaseSystem/" "" || ends_with_slash "BaseSystem/")%bool
       then "BaseSystem/" ++ label
       else "BaseSystem/" ++ "/" ++ label)%string /\
    (ends_with_slash "BaseSystem/" = true <->
     exists p, "BaseSystem/" = (p ++ "/")%string) /\
    [HttpGet "https://swcdn.apple.com/content/001/BaseSystem.pkg"
       ClientMeta.osinstall true; OpenWrite "BaseSystem/BaseSystem.pkg"] =
    [HttpGet u ClientMeta.osinstall true; OpenWrite "BaseSystem/BaseSystem.pkg"] /\
    py_div_1024 (Some (PInt 100)) = Ok tt.
Proof.
  exact (download_file_result (world_serving (PDict sample_catalog))
           (Some (PString "https://swcdn.apple.com/content/001/BaseSystem.pkg"))
           (Some (PInt 100)) "BaseSystem/" _ "BaseSystem/BaseSystem.pkg" eq_refl).
Defined.

(** The default output directory ends in a slash and gets none added; a
    directory that does not gets exactly one. *)
Example download_target_slash_rule :
  download_target "BaseSystem/" "https://swcdn.apple.com/content/001/BaseSystem.pkg" =
    "BaseSystem/BaseSystem.pkg" /\
  download_target "out" "https://swcdn.apple.com/content/001/BaseSystem.pkg" =
    "out/BaseSystem.pkg" /\
  download_target "" "BaseSystem.pkg" = "BaseSystem.pkg".
Proof. repeat split. Qed.

(** ** Where the download loop stops *)





(** The largest [Size] that still divides, and the first that does not. *)
Example size_at_the_float_limit :
  py_div_1024 (Some (PInt (float_limit - 1))) = Ok tt /\
  py_div_1024 (Some (PInt float_limit)) = Raise OverflowError /\
  py_div_1024 (Some (PInt (- float_limit))) = Raise OverflowError /\
  py_div_1024 (Some (PInt (10 ^ 400))) = Raise OverflowError /\
  py_div_1024 (Some (PBool true)) = Ok tt /\
  py_div_1024 None = Raise TypeError.
Proof. repeat split. Qed.



(** ** What [getosinstall] returns, and when *)

Lemma getosinstall_loop_exact (items : list (string * plist))
  (todo acc : list string) :
  SoftwareService.getosinstall_loop (PDict items) todo acc =
  if forallb (product_navigable items) todo
  then Ok (acc ++ filter (is_installer items) todo)
  else Raise AttributeError.
Proof.
  revert acc. induction todo as [|k todo IH]; intros acc.
  - simpl. now rewrite app_nil_r.
  - cbn [SoftwareService.getosinstall_loop filter forallb].
    unfold is_installer at 1, product_navigable at 1, py_get at 1.
    destruct (lookup k items) as [v|]; cbn [rbind].
    + unfold installer_path.
      destruct v as [f0| | | | | | |]; try reflexivity.
      cbn [navigable resolve_path py_get rbind].
      destruct (lookup "ExtendedMetaInfo" f0) as [v1|];
        [destruct v1 as [f1| | | | | | |]; try reflexivity|];
        cbn [navigable resolve_path py_get rbind lookup py_eq_str andb];
        try apply IH.
      destruct (lookup "InstallAssistantPackageIdentifiers" f1) as [v2|];
        [destruct v2 as [f2| | | | | | |]; try reflexivity|];
        cbn [navigable resolve_path py_get rbind lookup py_eq_str andb];
        try apply IH.
      destruct (lookup "OSInstall" f2) as [v3|];
        cbn [py_eq_str rbind andb]; [|apply IH].
      destruct v3; cbn [py_eq_str]; try apply IH.
      destruct (String.eqb s SoftwareService.marker); rewrite IH;
        destruct (forallb (product_navigable items) todo);
        try reflexivity.
      now rewrite <- app_assoc.
    + cbn [py_get lookup rbind py_eq_str andb]. apply IH.
Qed.

(** X5. On a decoded document whose "Products" is a mapping, [getosinstall]
    returns the marked ids in key order when every product can be walked
    along the metadata path, and raises [AttributeError] as soon as one
    cannot (a product, or a present value before the last step, that is not
    a mapping); it has no other outcome. *)
Theorem getosinstall_exact (w : World) (self : SoftwareService.t)
  (top products : list (string * plist)) :
  plistlib_loads w (SoftwareService.catalog_data self) = Some (PDict top) ->
  lookup "Products" top = Some (PDict products) ->
  SoftwareService.getosinstall w self =
  if forallb (product_navigable products) (keys products)
  then Ok (filter (is_installer products) (keys products))
  else Raise AttributeError.
Proof.
  intros Hload Hproducts. unfold SoftwareService.getosinstall. rewrite Hload.
  unfold SoftwareService.getosinstall_root, py_getitem. rewrite Hproducts.
  cbn [rbind]. now rewrite getosinstall_loop_exact.
Qed.

Lemma getosinstall_exact_witness :
  SoftwareService.getosinstall (world_serving (PDict odd_metadata_catalog))
    {| SoftwareService.catalog_url := public_release_url;
       SoftwareService.catalog_data := "catalog" |} =
  Raise AttributeError.
Proof.
  exact (getosinstall_exact (world_serving (PDict odd_metadata_catalog))
           {| SoftwareService.catalog_url := public_release_url;
              SoftwareService.catalog_data := "catalog" |}
           odd_metadata_catalog
           [("001-1", installer_product);
            ("001-9", PDict [("ExtendedMetaInfo", PString "none")])]
           eq_refl eq_refl).
Defined.

Lemma getosinstall_root_sound (root : plist) (ids : list string) :
  SoftwareService.getosinstall_root root = Ok ids ->
  ids = [] \/
  exists top products,
    root = PDict top /\
    lookup "Products" top = Some (PDict products) /\
    ids = filter (is_installer products) (keys products).
Proof.
  unfold SoftwareService.getosinstall_root, py_getitem.
  destruct root as [top| | | | | | |]; try discriminate.
  destruct (lookup "Products" top) as [products|] eqn:Hp; [|discriminate].
  cbn [rbind].
  destruct products as [products|elems|str| | | |bytes|]; cbn [py_iter rbind];
    try discriminate.
  - rewrite getosinstall_loop_exact.
    destruct (forallb (product_navigable products) (keys products));
      [|discriminate].
    intros H. inversion H. right. exists top, products. auto.
  - destruct elems; [|discriminate]. intros H. inversion H. now left.
  - destruct (chars str); [|discriminate]. intros H. inversion H. now left.
  - destruct (map PInt bytes); [|discriminate]. intros H. inversion H. now left.
Qed.

(** X6. Whatever the decoded document, every id [getosinstall] returns is a
    key of the "Products" mapping whose metadata path ends in the marker,
    and the ids come in the order of the keys without any key being listed
    more often than it occurs. *)
Theorem getosinstall_returns_marked_keys (w : World) (self : SoftwareService.t)
  (ids : list string) :
  SoftwareService.getosinstall w self = Ok ids ->
  forall id, In id ids ->
    exists top products v,
      plistlib_loads w (SoftwareService.catalog_data self) = Some (PDict top) /\
      lookup "Products" top = Some (PDict products) /\
      ids = filter (is_installer products) (keys products) /\
      lookup id products = Some v /\
      resolve_path v installer_path = Some (PString SoftwareService.marker).
Proof.
  unfold SoftwareService.getosinstall.
  destruct (plistlib_loads w (SoftwareService.catalog_data self)) as [root|];
    [|discriminate].
  intros H id Hin.
  destruct (getosinstall_root_sound root ids H) as [->|(top & products & -> & Hp & Hids)];
    [contradiction|].
  rewrite Hids in Hin. apply filter_is_installer_iff in Hin.
  destruct Hin as (v & Hl & Hv).
  exists top, products, v. auto.
Qed.

Lemma getosinstall_returns_marked_keys_witness :
  exists top products v,
    Some (PDict sample_catalog) = Some (PDict top) /\
    lookup "Products" top = Some (PDict products) /\
    ["001-1"; "001-3"] = filter (is_installer products) (keys products) /\
    lookup "001-3" products = Some v /\
    resolve_path v installer_path = Some (PString SoftwareService.marker).
Proof.
  refine (getosinstall_returns_marked_keys
            (world_serving (PDict sample_catalog))
            {| SoftwareService.catalog_url := public_release_url;
               SoftwareService.catalog_data := "catalog" |}
            ["001-1"; "001-3"] eq_refl "001-3" _).
  right. now left.
Defined.

(** ** Whole runs *)

Section Runs.

Variable w : World.
Variables output_dir catalog_id : string.
Variable fetch_esd : bool.
Variable remote : SoftwareService.t.
Variable body : string.
Hypothesis remote_init : SoftwareService.init catalog_id = Ok remote.
Hypothesis catalog_served :
  requests_get w (SoftwareService.catalog_url remote) = Some body.

Lemma fetch_product_found (product_id : string) (product : MacOSProduct.t) :
  MacOSProduct.init w body product_id = Ok product ->
  fetch_product w body product_id output_dir fetch_esd =
  (LogInfo ("Selected macOS Product: " ++ product_id) ::
     fst (MacOSProduct.fetchpackages w product output_dir
            (Some (selection_keyword fetch_esd))),
   snd (MacOSProduct.fetchpackages w product output_dir
          (Some (selection_keyword fetch_esd)))).
Proof.
  intros H. unfold fetch_product. rewrite except_KeyError_lift, H.
  rewrite bind_lift_ok, bind_emit. reflexivity.
Qed.

Lemma fetch_product_key_error (product_id key : string) :
  MacOSProduct.init w body product_id = Raise (KeyError key) ->
  fetch_product w body product_id output_dir fetch_esd =
  ([Print ("Product ID " ++ product_id ++ " could not be found.")],
   Raise (SystemExit 1)).
Proof.
  intros H. unfold fetch_product. rewrite except_KeyError_lift, H. reflexivity.
Qed.

Lemma fetchmacos_explicit (product_id : string) :
  product_id <> "" ->
  fetchmacos w output_dir catalog_id fetch_esd product_id false =
  (catalog_request (SoftwareService.catalog_url remote) ++
     fst (fetch_product w body product_id output_dir fetch_esd),
   snd (fetch_product w body product_id output_dir fetch_esd)).
Proof.
  intros Hid.
  rewrite (fetchmacos_unfold w output_dir catalog_id fetch_esd remote
             remote_init product_id body false catalog_served).
  unfold resolve_product_id. apply String.eqb_neq in Hid. rewrite Hid.
  now rewrite bind_ret.
Qed.

Lemma fetchmacos_latest (product_id : string) (ids : list string) :
  SoftwareService.getosinstall w (loaded remote body) = Ok ids ->
  ids <> [] ->
  fetchmacos w output_dir catalog_id fetch_esd product_id true =
  (catalog_request (SoftwareService.catalog_url remote) ++
     fst (fetch_product w body (last ids "") output_dir fetch_esd),
   snd (fetch_product w body (last ids "") output_dir fetch_esd)).
Proof.
  intros Hids Hne.
  rewrite (fetchmacos_unfold w output_dir catalog_id fetch_esd remote
             remote_init product_id body true catalog_served).
  rewrite (resolve_latest w _ product_id ids Hids).
  rewrite (py_last_nonempty ids "" Hne).
  change (@pair (list event) (result string) [] (Ok (last ids "")))
    with (ret (last ids "")).
  now rewrite bind_ret.
Qed.

Lemma fetchmacos_latest_raises (product_id : string) (e : exn) :
  SoftwareService.getosinstall w (loaded remote body) = Raise e ->
  fetchmacos w output_dir catalog_id fetch_esd product_id true =
  (catalog_request (SoftwareService.catalog_url remote), Raise e).
Proof.
  intros H.
  rewrite (fetchmacos_unfold w output_dir catalog_id fetch_esd remote
             remote_init product_id body true catalog_served).
  unfold resolve_product_id. rewrite H. cbn [lift bind fst snd].
  now rewrite app_nil_r.
Qed.

End Runs.

(** X7. Passing [--latest] is the same run as passing the last id of
    [getosinstall]'s list explicitly: same events, same outcome, provided
    that list is non-empty and its last id is not the empty string. *)
Theorem latest_is_explicit_last (w : World) (output_dir catalog_id : string)
  (fetch_esd : bool) (product_id : string) (remote : SoftwareService.t)
  (body : string) (ids : list string) :
  SoftwareService.init catalog_id = Ok remote ->
  requests_get w (SoftwareService.catalog_url remote) = Some body ->
  SoftwareService.getosinstall w (loaded remote body) = Ok ids ->
  ids <> [] ->
  last ids "" <> "" ->
  fetchmacos w output_dir catalog_id fetch_esd product_id true =
  fetchmacos w output_dir catalog_id fetch_esd (last ids "") false.
Proof.
  intros Hinit Hreq Hids Hne Hlast.
  rewrite (fetchmacos_latest w output_dir catalog_id fetch_esd remote body
             Hinit Hreq product_id ids Hids Hne).
  now rewrite (fetchmacos_explicit w output_dir catalog_id fetch_esd remote body
                 Hinit Hreq (last ids "") Hlast).
Qed.

Lemma latest_is_explicit_last_witness :
  fetchmacos (world_serving (PDict sample_catalog))
    "BaseSystem/" "PublicRelease" true "001-1" true =
  fetchmacos (world_serving (PDict sample_catalog))
    "BaseSystem/" "PublicRelease" true "001-3" false.
Proof.
  refine (latest_is_explicit_last (world_serving (PDict sample_catalog))
            "BaseSystem/" "PublicRelease" true "001-1"
            {| SoftwareService.catalog_url := public_release_url;
               SoftwareService.catalog_data := "" |}
            "catalog" ["001-1"; "001-3"] sample_init eq_refl eq_refl _ _);
    discriminate.
Defined.

(** X8. The id that [--latest] resolves to is always found: when
    [getosinstall] returned a non-empty list and the document has an
    "IndexDate", building the product for the last id succeeds, with that
    date and with the product stored under that id, which carries the
    marker. *)
Theorem latest_product_is_found (w : World) (self : SoftwareService.t)
  (top : list (string * plist)) (d : plist) (ids : list string) :
  plistlib_loads w (SoftwareService.catalog_data self) = Some (PDict top) ->
  lookup "IndexDate" top = Some d ->
  SoftwareService.getosinstall w self = Ok ids ->
  ids <> [] ->
  exists products v,
    lookup "Products" top = Some (PDict products) /\
    lookup (last ids "") products = Some v /\
    resolve_path v installer_path = Some (PString SoftwareService.marker) /\
    MacOSProduct.init w (SoftwareService.catalog_data self) (last ids "") =
    Ok {| MacOSProduct.date := d; MacOSProduct.product := v |}.
Proof.
  intros Hload Hdate Hids Hne.
  unfold SoftwareService.getosinstall in Hids. rewrite Hload in Hids.
  destruct (getosinstall_root_sound _ ids Hids)
    as [->|(top' & products & Htop & Hp & Hfilter)]; [contradiction|].
  inversion Htop; subst top'.
  assert (Hin : In (last ids "") ids) by now apply last_in.
  rewrite Hfilter in Hin at 2. apply filter_is_installer_iff in Hin.
  destruct Hin as (v & Hl & Hv).
  exists products, v. repeat split; try assumption.
  unfold MacOSProduct.init. rewrite Hload. unfold py_getitem.
  rewrite Hp, Hdate. cbn [rbind]. now rewrite Hl.
Qed.

Lemma latest_product_is_found_witness :
  exists products v,
    lookup "Products" sample_catalog = Some (PDict products) /\
    lookup "001-3" products = Some v /\
    resolve_path v installer_path = Some (PString SoftwareService.marker) /\
    MacOSProduct.init (world_serving (PDict sample_catalog)) "catalog" "001-3" =
    Ok {| MacOSProduct.date := PDate 1570000000; MacOSProduct.product := v |}.
Proof.
  refine (latest_product_is_found (world_serving (PDict sample_catalog))
            {| SoftwareService.catalog_url := public_release_url;
               SoftwareService.catalog_data := "catalog" |}
            sample_catalog (PDate 1570000000) ["001-1"; "001-3"]
            eq_refl eq_refl eq_refl _).
  discriminate.
Defined.

(** X9. A catalog that does not decode ends the run with the decoder's
    exception, in both modes: after the catalog request nothing is printed,
    logged, created or downloaded. *)
Theorem undecodable_catalog_propagates (w : World)
  (output_dir catalog_id : string) (fetch_esd : bool) (product_id : string)
  (latest : bool) (remote : SoftwareService.t) (body : string) :
  SoftwareService.init catalog_id = Ok remote ->
  requests_get w (SoftwareService.catalog_url remote) = Some body ->
  plistlib_loads w body = None ->
  latest = true \/ product_id <> "" ->
  fetchmacos w output_dir catalog_id fetch_esd product_id latest =
  (catalog_request (SoftwareService.catalog_url remote),
   Raise InvalidFileException).
Proof.
  intros Hinit Hreq Hload Hmode.
  destruct latest.
  - apply (fetchmacos_latest_raises w output_dir catalog_id fetch_esd remote body
             Hinit Hreq).
    unfold SoftwareService.getosinstall, loaded.
    cbn [SoftwareService.catalog_data]. now rewrite Hload.
  - destruct Hmode as [Hl|Hid]; [discriminate|].
    rewrite (fetchmacos_explicit w output_dir catalog_id fetch_esd remote body
               Hinit Hreq product_id Hid).
    unfold fetch_product. rewrite except_KeyError_lift.
    unfold MacOSProduct.init. rewrite Hload.
    reflexivity.
Qed.

Lemma undecodable_catalog_propagates_witness :
  fetchmacos world_undecodable "BaseSystem/" "PublicRelease" false "001-1" false =
  (catalog_request public_release_url, Raise InvalidFileException).
Proof.
  refine (undecodable_catalog_propagates world_undecodable
            "BaseSystem/" "PublicRelease" false "001-1" false
            {| SoftwareService.catalog_url := public_release_url;
               SoftwareService.catalog_data := "" |}
            "<html>" sample_init eq_refl eq_refl _).
  right. discriminate.
Defined.

(** X10. The [except KeyError] around the construction also catches a
    document that lacks "Products" or "IndexDate": with an explicit id, such
    a catalog is reported as the product id not being found (exit status 1),
    even when the id is a key of "Products". *)
Theorem incomplete_catalog_reported_as_unknown_id (w : World)
  (output_dir catalog_id : string) (fetch_esd : bool) (product_id : string)
  (remote : SoftwareService.t) (body : string) (top : list (string * plist)) :
  SoftwareService.init catalog_id = Ok remote ->
  requests_get w (SoftwareService.catalog_url remote) = Some body ->
  plistlib_loads w body = Some (PDict top) ->
  lookup "Products" top = None \/ lookup "IndexDate" top = None ->
  product_id <> "" ->
  fetchmacos w output_dir catalog_id fetch_esd product_id false =
  (catalog_request (SoftwareService.catalog_url remote) ++
     [Print ("Product ID " ++ product_id ++ " could not be found.")],
   Raise (SystemExit 1)).
Proof.
  intros Hinit Hreq Hload Hmissing Hid.
  rewrite (fetchmacos_explicit w output_dir catalog_id fetch_esd remote body
             Hinit Hreq product_id Hid).
  assert (Hraise : exists key,
            MacOSProduct.init w body product_id = Raise (KeyError key)).
  { unfold MacOSProduct.init. rewrite Hload. unfold py_getitem.
    destruct (lookup "Products" top) as [products|] eqn:Hp; cbn [rbind];
      [|eauto].
    destruct Hmissing as [H|H]; [discriminate|]. rewrite H. cbn [rbind]. eauto. }
  destruct Hraise as (key & Hraise).
  now rewrite (fetch_product_key_error w output_dir fetch_esd body
                 product_id key Hraise).
Qed.

Lemma incomplete_catalog_reported_as_unknown_id_witness :
  lookup "001-1" sample_products = Some installer_product /\
  fetchmacos (world_serving (PDict undated_catalog))
    "BaseSystem/" "PublicRelease" false "001-1" false =
  (catalog_request public_release_url ++
     [Print "Product ID 001-1 could not be found."],
   Raise (SystemExit 1)).
Proof.
  split; [reflexivity|].
  refine (incomplete_catalog_reported_as_unknown_id
            (world_serving (PDict undated_catalog))
            "BaseSystem/" "PublicRelease" false "001-1"
            {| SoftwareService.catalog_url := public_release_url;
               SoftwareService.catalog_data := "" |}
            "catalog" undated_catalog sample_init eq_refl eq_refl _ _);
    [right; reflexivity | discriminate].
Defined.

(** X11. With [--latest] the same defect is not caught: on a document
    without "Products", [getosinstall] raises [KeyError "Products"] outside
    the [try], so the run ends with that exception and prints nothing. *)
Theorem latest_on_productless_catalog (w : World)
  (output_dir catalog_id : string) (fetch_esd : bool) (product_id : string)
  (remote : SoftwareService.t) (body : string) (top : list (string * plist)) :
  SoftwareService.init catalog_id = Ok remote ->
  requests_get w (SoftwareService.catalog_url remote) = Some body ->
  plistlib_loads w body = Some (PDict top) ->
  lookup "Products" top = None ->
  fetchmacos w output_dir catalog_id fetch_esd product_id true =
  (catalog_request (SoftwareService.catalog_url remote),
   Raise (KeyError "Products")).
Proof.
  intros Hinit Hreq Hload Hmissing.
  apply (fetchmacos_latest_raises w output_dir catalog_id fetch_esd remote body
           Hinit Hreq).
  unfold SoftwareService.getosinstall, loaded. cbn [SoftwareService.catalog_data].
  rewrite Hload. unfold SoftwareService.getosinstall_root, py_getitem.
  now rewrite Hmissing.
Qed.

Lemma latest_on_productless_catalog_witness :
  fetchmacos (world_serving (PDict productless_catalog))
    "BaseSystem/" "PublicRelease" false "" true =
  (catalog_request public_release_url, Raise (KeyError "Products")).
Proof.
  exact (latest_on_productless_catalog
           (world_serving (PDict productless_catalog))
           "BaseSystem/" "PublicRelease" false ""
           {| SoftwareService.catalog_url := public_release_url;
              SoftwareService.catalog_data := "" |}
           "catalog" productless_catalog sample_init eq_refl eq_refl eq_refl).
Defined.

(** X12. A product that is found but has no "Packages" entry is not reported
    as missing: the run logs the selection, creates the output directory and
    then ends with an uncaught [KeyError "Packages"]. *)
Theorem product_without_packages (w : World)
  (output_dir catalog_id : string) (fetch_esd : bool) (product_id : string)
  (remote : SoftwareService.t) (body : string)
  (top products fields : list (string * plist)) (d : plist) :
  SoftwareService.init catalog_id = Ok remote ->
  requests_get w (SoftwareService.catalog_url remote) = Some body ->
  plistlib_loads w body = Some (PDict top) ->
  lookup "Products" top = Some (PDict products) ->
  lookup "IndexDate" top = Some d ->
  lookup product_id products = Some (PDict fields) ->
  lookup "Packages" fields = None ->
  product_id <> "" ->
  os_makedirs w output_dir = true ->
  fetchmacos w output_dir catalog_id fetch_esd product_id false =
  (catalog_request (SoftwareService.catalog_url remote) ++
     [LogInfo ("Selected macOS Product: " ++ product_id); MakeDirs output_dir],
   Raise (KeyError "Packages")).
Proof.
  intros Hinit Hreq Hload Hp Hdate Hprod Hpk Hid Hdir.
  rewrite (fetchmacos_explicit w output_dir catalog_id fetch_esd remote body
             Hinit Hreq product_id Hid).
  assert (Hfound : MacOSProduct.init w body product_id =
                   Ok {| MacOSProduct.date := d;
                         MacOSProduct.product := PDict fields |}).
  { unfold MacOSProduct.init. rewrite Hload. unfold py_getitem.
    rewrite Hp, Hdate. cbn [rbind]. now rewrite Hprod. }
  rewrite (fetch_product_found w output_dir fetch_esd body product_id _ Hfound).
  unfold MacOSProduct.fetchpackages, Filesystem.check_directory.
  rewrite Hdir. cbn [MacOSProduct.product py_getitem]. rewrite Hpk.
  reflexivity.
Qed.

Lemma product_without_packages_witness :
  fetchmacos (world_serving (PDict packageless_catalog))
    "BaseSystem/" "PublicRelease" false "001-7" false =
  (catalog_request public_release_url ++
     [LogInfo "Selected macOS Product: 001-7"; MakeDirs "BaseSystem/"],
   Raise (KeyError "Packages")).
Proof.
  refine (product_without_packages
            (world_serving (PDict packageless_catalog))
            "BaseSystem/" "PublicRelease" false "001-7"
            {| SoftwareService.catalog_url := public_release_url;
               SoftwareService.catalog_data := "" |}
            "catalog" packageless_catalog
            [("001-7", PDict [("ServerMetadataURL", PString "x")])]
            [("ServerMetadataURL", PString "x")] (PDate 1570000000)
            sample_init eq_refl eq_refl eq_refl eq_refl eq_refl eq_refl _ eq_refl).
  discriminate.
Defined.



(** ** What a run can emit *)

Section Events.

Variable w : World.
Variable path : string.

Lemma download_file_events (kw : string) (url size : option plist) :
  (forall u, url = Some (PString u) -> contains kw u = true) ->
  Forall (download_event path kw) (fst (Filesystem.download_file w url size path)).
Proof.
  intros Hsel. unfold Filesystem.download_file.
  destruct url as [[| |u| | | | |]|]; try constructor.
  assert (Hu : contains kw u = true) by now apply Hsel.
  rewrite bind_emit. cbn [fst].
  constructor; [cbn; auto|].
  destruct (requests_get w u); [|constructor].
  rewrite bind_emit. cbn [fst].
  constructor; [exists u; auto|].
  destruct (open_wb w _); [|constructor].
  rewrite fst_bind. cbn [lift fst app].
  destruct (py_div_1024 size); constructor.
Qed.

Lemma fetch_matching_events (kw : string) (packages : list plist) :
  Forall (download_event path kw)
    (fst (MacOSProduct.fetch_matching w kw path packages)).
Proof.
  induction packages as [|item rest IH]; [constructor|].
  cbn [MacOSProduct.fetch_matching]. rewrite fst_bind. cbn [lift fst snd app].
  destruct (py_get_none item "URL") as [url|]; [|constructor].
  rewrite fst_bind. cbn [lift fst snd app].
  destruct (py_in kw url) as [hit|] eqn:Hin; [|constructor].
  rewrite fst_bind. apply Forall_app. split.
  - destruct hit; [|constructor].
    rewrite fst_bind. cbn [lift fst snd app].
    destruct (py_get_none item "Size") as [size|]; [|constructor].
    rewrite fst_bind. apply Forall_app. split.
    + apply download_file_events. intros u ->. cbn [py_in] in Hin.
      now inversion Hin.
    + destruct (snd (Filesystem.download_file w url size path)); constructor.
  - destruct (snd _); [exact IH|constructor].
Qed.

Lemma fetch_all_events (packages : list plist) :
  Forall (download_event path "") (fst (MacOSProduct.fetch_all w path packages)).
Proof.
  induction packages as [|item rest IH]; [constructor|].
  cbn [MacOSProduct.fetch_all]. rewrite fst_bind. cbn [lift fst snd app].
  destruct (py_get_none item "URL") as [url|]; [|constructor].
  rewrite fst_bind. cbn [lift fst snd app].
  destruct (py_get_none item "Size") as [size|]; [|constructor].
  rewrite fst_bind. apply Forall_app. split.
  - apply download_file_events. intros u _. apply contains_empty.
  - destruct (snd _); [exact IH|constructor].
Qed.

Lemma download_event_product (kw : string) (ev : event) :
  download_event path kw ev -> product_event path kw ev.
Proof. destruct ev; cbn; tauto. Qed.

Lemma fetchpackages_shape (self : MacOSProduct.t) (keyword : option string) :
  exists rest,
    fst (MacOSProduct.fetchpackages w self path keyword) = MakeDirs path :: rest /\
    Forall (download_event path (effective_keyword keyword)) rest /\
    (os_makedirs w path = false ->
     rest = [] /\
     snd (MacOSProduct.fetchpackages w self path keyword) = Raise OSError).
Proof.
  unfold MacOSProduct.fetchpackages, Filesystem.check_directory.
  rewrite fst_bind, snd_bind, bind_emit. cbn [fst snd app].
  destruct (os_makedirs w path); cbn [ret raise fst snd app].
  2:{ exists []. repeat split; constructor. }
  eexists. split; [reflexivity|]. split; [|discriminate].
  rewrite fst_bind. cbn [lift fst snd app].
  destruct (py_getitem (MacOSProduct.product self) "Packages") as [packages|];
    [|constructor].
  rewrite fst_bind. cbn [lift fst snd app].
  destruct (py_iter packages) as [todo|]; [|constructor].
  destruct keyword as [kw|]; cbn [effective_keyword MacOSProduct.truthy].
  - destruct (String.eqb_spec kw "") as [->|Hne]; cbn [negb].
    + apply fetch_all_events.
    + apply fetch_matching_events.
  - apply fetch_all_events.
Qed.

Lemma fetchpackages_events (self : MacOSProduct.t) (keyword : option string) :
  Forall (product_event path (effective_keyword keyword))
    (fst (MacOSProduct.fetchpackages w self path keyword)).
Proof.
  destruct (fetchpackages_shape self keyword) as (rest & -> & Hrest & _).
  constructor; [reflexivity|].
  exact (Forall_impl _ (download_event_product _) Hrest).
Qed.

End Events.

Lemma fetch_product_events (w : World) (catalog product_id output_dir : string)
  (fetch_esd : bool) :
  Forall (product_event output_dir (selection_keyword fetch_esd))
    (fst (fetch_product w catalog product_id output_dir fetch_esd)).
Proof.
  unfold fetch_product. rewrite fst_bind, except_KeyError_lift.
  apply Forall_app. split.
  - destruct (MacOSProduct.init w catalog product_id) as [product|[]];
      try constructor; [exact I|constructor].
  - destruct (snd _) as [product|]; [|constructor].
    rewrite bind_emit. cbn [fst]. constructor; [exact I|].
    apply (fetchpackages_events w output_dir product
             (Some (selection_keyword fetch_esd))).
Qed.

Lemma resolve_product_id_events (w : World) (remote : SoftwareService.t)
  (product_id : string) (latest : bool) (path kw : string) :
  Forall (product_event path kw)
    (fst (resolve_product_id w remote product_id latest)).
Proof.
  unfold resolve_product_id. destruct latest.
  - rewrite fst_bind. cbn [lift fst snd app].
    destruct (SoftwareService.getosinstall w remote); constructor.
  - destruct (String.eqb product_id ""); [|constructor].
    constructor; [exact I|constructor].
Qed.

Lemma fetchmacos_events (w : World) (output_dir catalog_id : string)
  (fetch_esd : bool) (product_id : string) (latest : bool) :
  exists remote rest,
    SoftwareService.init catalog_id = Ok remote /\
    fst (fetchmacos w output_dir catalog_id fetch_esd product_id latest) =
      catalog_request (SoftwareService.catalog_url remote) ++ rest /\
    Forall (product_event output_dir (selection_keyword fetch_esd)) rest.
Proof.
  destruct (init_total catalog_id) as (remote & Hinit & _).
  exists remote.
  destruct (requests_get w (SoftwareService.catalog_url remote)) as [body|] eqn:Hreq.
  - rewrite (fetchmacos_unfold w output_dir catalog_id fetch_esd remote Hinit
               product_id body latest Hreq).
    cbn [fst]. eexists. split; [exact Hinit|]. split; [reflexivity|].
    rewrite fst_bind. apply Forall_app. split.
    + apply resolve_product_id_events.
    + destruct (snd _); [|constructor]. apply fetch_product_events.
  - rewrite (fetchmacos_request_fails w output_dir catalog_id fetch_esd remote
               Hinit product_id latest Hreq).
    exists []. split; [exact Hinit|]. split; [now rewrite app_nil_r|constructor].
Qed.

(** X14. In every run, whatever the arguments, the catalog and the world,
    each request carries the agent of its kind: the software-update agent on
    the catalog request, the installer agent on every streamed download. *)
Theorem requests_carry_their_agent (w : World) (output_dir catalog_id : string)
  (fetch_esd : bool) (product_id : string) (latest : bool)
  (u ua : string) (stream : bool) :
  In (HttpGet u ua stream)
    (fst (fetchmacos w output_dir catalog_id fetch_esd product_id latest)) ->
  ua = if stream then ClientMeta.osinstall else ClientMeta.swupdate.
Proof.
  destruct (fetchmacos_events w output_dir catalog_id fetch_esd product_id latest)
    as (remote & rest & _ & -> & Hrest).
  intros Hin. apply in_app_or in Hin. destruct Hin as [Hin|Hin].
  - destruct Hin as [Hin|[Hin|[]]]; [discriminate|]. now inversion Hin.
  - rewrite Forall_forall in Hrest. destruct (Hrest _ Hin) as (-> & -> & _).
    reflexivity.
Qed.

Lemma requests_carry_their_agent_witness :
  In (HttpGet "https://swcdn.apple.com/content/001/BaseSystem.pkg"
        ClientMeta.osinstall true)
    (fst (fetchmacos (world_serving (PDict sample_catalog))
            "BaseSystem/" "PublicRelease" false "001-1" false)) /\
  ClientMeta.osinstall = ClientMeta.osinstall.
Proof.
  assert (Hin : In (HttpGet "https://swcdn.apple.com/content/001/BaseSystem.pkg"
                      ClientMeta.osinstall true)
                  (fst (fetchmacos (world_serving (PDict sample_catalog))
                          "BaseSystem/" "PublicRelease" false "001-1" false))).
  { do 4 right. now left. }
  split; [exact Hin|].
  exact (requests_carry_their_agent (world_serving (PDict sample_catalog))
           "BaseSystem/" "PublicRelease" false "001-1" false
           "https://swcdn.apple.com/content/001/BaseSystem.pkg"
           ClientMeta.osinstall true Hin).
Defined.

(** X15. No run requests a package whose url lacks the keyword: every
    streamed request of every run is for a url that contains "BaseSystem",
    or "InstallESDDmg.pkg" under [--fetch-esd], however the catalog is
    shaped. *)
Theorem downloads_match_keyword (w : World) (output_dir catalog_id : string)
  (fetch_esd : bool) (product_id : string) (latest : bool) (u ua : string) :
  In (HttpGet u ua true)
    (fst (fetchmacos w output_dir catalog_id fetch_esd product_id latest)) ->
  contains (selection_keyword fetch_esd) u = true.
Proof.
  destruct (fetchmacos_events w output_dir catalog_id fetch_esd product_id latest)
    as (remote & rest & _ & -> & Hrest).
  intros Hin. apply in_app_or in Hin. destruct Hin as [Hin|Hin].
  - destruct Hin as [Hin|[Hin|[]]]; discriminate.
  - rewrite Forall_forall in Hrest. now destruct (Hrest _ Hin) as (_ & _ & H).
Qed.

Lemma downloads_match_keyword_witness :
  In (HttpGet "https://swcdn.apple.com/content/001/InstallESDDmg.pkg"
        ClientMeta.osinstall true)
    (fst (fetchmacos (world_serving (PDict sample_catalog))
            "BaseSystem/" "PublicRelease" true "" true)) /\
  contains (selection_keyword true)
    "https://swcdn.apple.com/content/001/InstallESDDmg.pkg" = true.
Proof.
  assert (Hin : In (HttpGet "https://swcdn.apple.com/content/001/InstallESDDmg.pkg"
                      ClientMeta.osinstall true)
                  (fst (fetchmacos (world_serving (PDict sample_catalog))
                          "BaseSystem/" "PublicRelease" true "" true))).
  { do 4 right. now left. }
  split; [exact Hin|].
  exact (downloads_match_keyword (world_serving (PDict sample_catalog))
           "BaseSystem/" "PublicRelease" true "" true
           "https://swcdn.apple.com/content/001/InstallESDDmg.pkg"
           ClientMeta.osinstall Hin).
Defined.



(** X17. Every run, whatever its arguments, begins by logging and sending
    the catalog request to the url its catalog id resolves to, and sends no
    second catalog request: also with [--latest], where the catalog is
    decoded twice, it is fetched once. *)
Theorem one_catalog_request_first (w : World) (output_dir catalog_id : string)
  (fetch_esd : bool) (product_id : string) (latest : bool) :
  exists remote rest,
    SoftwareService.init catalog_id = Ok remote /\
    fst (fetchmacos w output_dir catalog_id fetch_esd product_id latest) =
      catalog_request (SoftwareService.catalog_url remote) ++ rest /\
    filter is_catalog_get rest = [] /\
    filter is_catalog_get
      (fst (fetchmacos w output_dir catalog_id fetch_esd product_id latest)) =
      [HttpGet (SoftwareService.catalog_url remote) ClientMeta.swupdate false].
Proof.
  destruct (fetchmacos_events w output_dir catalog_id fetch_esd product_id latest)
    as (remote & rest & Hinit & Htrace & Hrest).
  exists remote, rest. split; [exact Hinit|]. split; [exact Htrace|].
  assert (Hnone : filter is_catalog_get rest = []).
  { clear Htrace. induction Hrest as [|ev rest Hev _ IH]; [reflexivity|].
    cbn [filter]. rewrite IH.
    destruct ev as [| u ua [|] | | |]; try reflexivity.
    destruct Hev as (Hst & _). discriminate. }
  split; [exact Hnone|].
  rewrite Htrace, filter_app, Hnone. reflexivity.
Qed.

(** ** How a run can end with [exit] *)

Lemma getosinstall_plain (w : World) (self : SoftwareService.t) (e : exn) :
  SoftwareService.getosinstall w self = Raise e -> plain e.
Proof.
  unfold SoftwareService.getosinstall.
  destruct (plistlib_loads w _) as [root|];
    [|intros H; inversion H; exact I].
  unfold SoftwareService.getosinstall_root, py_getitem.
  destruct root as [top| | | | | | |];
    try (intros H; inversion H; exact I).
  destruct (lookup "Products" top) as [products|];
    [|intros H; inversion H; exact I].
  cbn [rbind].
  destruct products as [products|elems|str| | | |bytes|]; cbn [py_iter rbind];
    try (intros H; inversion H; exact I).
  - rewrite getosinstall_loop_exact.
    destruct (forallb _ _); intros H; inversion H; exact I.
  - destruct elems; intros H; inversion H; exact I.
  - destruct (chars str); intros H; inversion H; exact I.
  - destruct (map PInt bytes); intros H; inversion H; exact I.
Qed.

Lemma product_init_plain (w : World) (catalog product_id : string) (e : exn) :
  MacOSProduct.init w catalog product_id = Raise e -> plain e.
Proof.
  unfold MacOSProduct.init.
  destruct (plistlib_loads w catalog) as [root|];
    [|intros H; inversion H; exact I].
  unfold py_getitem.
  destruct root as [top| | | | | | |];
    try (intros H; inversion H; exact I).
  destruct (lookup "Products" top) as [products|]; cbn [rbind];
    [|intros H; inversion H; exact I].
  destruct (lookup "IndexDate" top); cbn [rbind];
    [|intros H; inversion H; exact I].
  destruct products as [products| | | | | | |];
    try (intros H; inversion H; exact I).
  destruct (lookup product_id products); cbn [rbind];
    intros H; inversion H; exact I.
Qed.

Lemma download_file_plain (w : World) (url size : option plist) (path : string)
  (e : exn) :
  snd (Filesystem.download_file w url size path) = Raise e -> plain e.
Proof.
  unfold Filesystem.download_file.
  destruct url as [[| |u| | | | |]|];
    try (intros H; inversion H; exact I).
  rewrite snd_bind. cbn [emit snd].
  destruct (requests_get w u); [|intros H; inversion H; exact I].
  rewrite snd_bind. cbn [emit snd].
  destruct (open_wb w _); [|intros H; inversion H; exact I].
  rewrite snd_bind. cbn [lift snd].
  unfold py_div_1024.
  destruct size as [[| | |z| | | |]|]; try (intros H; inversion H; exact I).
  destruct (Z.abs z <? float_limit)%Z; intros H; inversion H; exact I.
Qed.

Lemma fetch_matching_plain (w : World) (kw path : string)
  (packages : list plist) (e : exn) :
  snd (MacOSProduct.fetch_matching w kw path packages) = Raise e -> plain e.
Proof.
  induction packages as [|item rest IH]; [discriminate|].
  cbn [MacOSProduct.fetch_matching]. rewrite snd_bind. cbn [lift snd].
  destruct (py_get_none item "URL") as [url|e1] eqn:E1.
  - rewrite snd_bind. cbn [lift snd].
    destruct (py_in kw url) as [hit|e2] eqn:E2.
    + rewrite snd_bind.
      destruct hit.
      * rewrite snd_bind. cbn [lift snd].
        destruct (py_get_none item "Size") as [size|e3] eqn:E3.
        -- rewrite snd_bind.
           destruct (snd (Filesystem.download_file w url size path)) eqn:E4.
           ++ exact IH.
           ++ intros H. inversion H; subst.
              exact (download_file_plain w url size path e E4).
        -- destruct item; inversion E3; intros H; inversion H; exact I.
      * exact IH.
    + intros H. inversion H; subst.
      destruct url as [[]|]; inversion E2; exact I.
  - destruct item; inversion E1; intros H; inversion H; exact I.
Qed.

Lemma fetch_all_plain (w : World) (path : string) (packages : list plist)
  (e : exn) :
  snd (MacOSProduct.fetch_all w path packages) = Raise e -> plain e.
Proof.
  induction packages as [|item rest IH]; [discriminate|].
  cbn [MacOSProduct.fetch_all]. rewrite snd_bind. cbn [lift snd].
  destruct (py_get_none item "URL") as [url|e1] eqn:E1.
  - rewrite snd_bind. cbn [lift snd].
    destruct (py_get_none item "Size") as [size|e3] eqn:E3.
    + rewrite snd_bind.
      destruct (snd (Filesystem.download_file w url size path)) eqn:E4.
      * exact IH.
      * intros H. inversion H; subst.
        exact (download_file_plain w url size path e E4).
    + destruct item; inversion E3; intros H; inversion H; exact I.
  - destruct item; inversion E1; intros H; inversion H; exact I.
Qed.

Lemma fetchpackages_plain (w : World) (self : MacOSProduct.t) (path : string)
  (keyword : option string) (e : exn) :
  snd (MacOSProduct.fetchpackages w self path keyword) = Raise e -> plain e.
Proof.
  unfold MacOSProduct.fetchpackages, Filesystem.check_directory.
  rewrite snd_bind, snd_bind. cbn [emit snd].
  destruct (os_makedirs w path); cbn [ret raise snd];
    [|intros H; inversion H; exact I].
  rewrite snd_bind. cbn [lift snd].
  destruct (py_getitem (MacOSProduct.product self) "Packages") as [packages|e1] eqn:E1.
  - rewrite snd_bind. cbn [lift snd].
    destruct (py_iter packages) as [todo|e2] eqn:E2.
    + destruct keyword as [kw|].
      * destruct (MacOSProduct.truthy (Some kw));
          [apply fetch_matching_plain|apply fetch_all_plain].
      * apply fetch_all_plain.
    + destruct packages; inversion E2; intros H; inversion H; exact I.
  - unfold py_getitem in E1.
    destruct (MacOSProduct.product self) as [fields| | | | | | |];
      try (inversion E1; intros H; inversion H; exact I).
    destruct (lookup "Packages" fields); inversion E1.
    intros H. inversion H. exact I.
Qed.

(** X18. A run ends through [exit] in two ways only, both with status 1 and
    both before anything is created or downloaded: after the catalog request
    the sole further event is the printed message, which is either the
    request for a product id or the report that an id could not be found. *)
Theorem exit_is_status_one_after_message (w : World)
  (output_dir catalog_id : string) (fetch_esd : bool) (product_id : string)
  (latest : bool) (code : Z) :
  snd (fetchmacos w output_dir catalog_id fetch_esd product_id latest) =
    Raise (SystemExit code) ->
  code = 1%Z /\
  exists remote msg,
    SoftwareService.init catalog_id = Ok remote /\
    fst (fetchmacos w output_dir catalog_id fetch_esd product_id latest) =
      catalog_request (SoftwareService.catalog_url remote) ++ [Print msg] /\
    (msg = missing_id_message \/
     exists id, msg = ("Product ID " ++ id ++ " could not be found.")%string).
Proof.
  destruct (init_total catalog_id) as (remote & Hinit & _).
  destruct (requests_get w (SoftwareService.catalog_url remote)) as [body|] eqn:Hreq.
  2:{ rewrite (fetchmacos_request_fails w output_dir catalog_id fetch_esd remote
                 Hinit product_id latest Hreq). discriminate. }
  rewrite (fetchmacos_unfold w output_dir catalog_id fetch_esd remote Hinit
             product_id body latest Hreq).
  cbn [fst snd]. rewrite snd_bind, fst_bind.
  assert (Hproduct : forall id,
    snd (fetch_product w body id output_dir fetch_esd) = Raise (SystemExit code) ->
    code = 1%Z /\
    fst (fetch_product w body id output_dir fetch_esd) =
      [Print ("Product ID " ++ id ++ " could not be found.")]).
  { intros id. unfold fetch_product. rewrite snd_bind, fst_bind.
    rewrite except_KeyError_lift.
    destruct (MacOSProduct.init w body id) as [product|e] eqn:Hp.
    - cbn [lift snd fst app]. rewrite snd_bind. cbn [emit snd].
      intros H. now apply fetchpackages_plain in H.
    - pose proof (product_init_plain w body id e Hp) as Hplain.
      destruct e; cbn [lift snd fst]; try (intros H; inversion H; fail).
      + intros H. inversion H. auto.
      + contradiction. }
  unfold resolve_product_id. destruct latest.
  - rewrite snd_bind, fst_bind. cbn [lift snd fst app].
    destruct (SoftwareService.getosinstall w (loaded remote body)) as [ids|e] eqn:Hids.
    + unfold py_last. destruct (rev ids) as [|id _]; cbn [lift snd fst];
        [discriminate|].
      intros H. destruct (Hproduct id H) as (-> & Hfst).
      split; [reflexivity|].
      exists remote, ("Product ID " ++ id ++ " could not be found.")%string.
      split; [exact Hinit|].
      rewrite Hfst. split; [reflexivity|]. right. now exists id.
    + intros H. inversion H; subst.
      now apply getosinstall_plain in Hids.
  - destruct (String.eqb product_id "").
    + cbn. intros H. inversion H. split; [reflexivity|].
      exists remote, missing_id_message. auto.
    + cbn [ret snd fst app]. intros H. destruct (Hproduct product_id H) as (-> & Hfst).
      split; [reflexivity|].
      exists remote, ("Product ID " ++ product_id ++ " could not be found.")%string.
      split; [exact Hinit|].
      rewrite Hfst. split; [reflexivity|]. right. now exists product_id.
Qed.

Lemma exit_is_status_one_after_message_witness :
  1%Z = 1%Z /\
  exists remote msg,
    SoftwareService.init "PublicRelease" = Ok remote /\
    fst (fetchmacos (world_serving (PDict sample_catalog))
           "BaseSystem/" "PublicRelease" false "041-9" false) =
      catalog_request (SoftwareService.catalog_url remote) ++ [Print msg] /\
    (msg = missing_id_message \/
     exists id, msg = ("Product ID " ++ id ++ " could not be found.")%string).
Proof.
  exact (exit_is_status_one_after_message
           (world_serving (PDict sample_catalog))
           "BaseSystem/" "PublicRelease" false "041-9" false 1 eq_refl).
Defined.

(** ** The output directory comes first *)

(** X19. Whatever the product and the keyword, [fetchpackages] starts by
    creating the output directory and emits nothing afterwards but download
    requests, each for a url containing the keyword, and the opening of
    their target files; when the directory cannot be created it stops there
    with [OSError], before reading the package list. *)
Theorem fetchpackages_creates_directory_first (w : World)
  (self : MacOSProduct.t) (path : string) (keyword : option string) :
  exists rest,
    fst (MacOSProduct.fetchpackages w self path keyword) = MakeDirs path :: rest /\
    Forall (download_event path (effective_keyword keyword)) rest /\
    (os_makedirs w path = true \/
     MacOSProduct.fetchpackages w self path keyword =
     ([MakeDirs path], Raise OSError)).
Proof.
  destruct (fetchpackages_shape w path self keyword) as (rest & Hfst & Hrest & Hfail).
  exists rest. split; [exact Hfst|]. split; [exact Hrest|].
  destruct (os_makedirs w path); [now left|right].
  destruct (Hfail eq_refl) as (Hnil & Hsnd).
  rewrite (surjective_pairing (MacOSProduct.fetchpackages w self path keyword)).
  now rewrite Hfst, Hsnd, Hnil.
Qed.
